(** * tigrisdata/storage-go: the option resolvers and the two client facades

    A shallow embedding of the Go packages [storage], [tigrisheaders] and
    [simplestorage].  Every method of the library is a short program that
    prepares a request, hands it to the AWS SDK client and translates the
    reply.  The SDK is outside the repository: a program is therefore a tree
    whose nodes are the SDK calls it makes, and it is run against an
    arbitrary service that answers those calls. *)

From Stdlib Require Import String Ascii List ZArith NArith Bool Lia.
Import ListNotations.
Open Scope string_scope.
Open Scope list_scope.

(** ** Go values *)

(** [time.Time], counted in nanoseconds from the zero value [time.Time{}]. *)
Definition Time := Z.
Definition Time_zero : Time := 0%Z.

(** [time.Duration]: an int64 count of nanoseconds. *)
Definition Duration := Z.

(** [os.Getenv]: the value of a variable, the empty string when unset. *)
Definition Env := string -> string.

(** The loop [for _, doer := range options { doer(&o) }] that every resolver
    of the library runs over its functional options. *)
Fixpoint range_apply {O : Type} (options : list (O -> O)) (o : O) : O :=
  match options with
  | [] => o
  | doer :: rest => range_apply rest (doer o)
  end.

(** An option function that leaves the field read by [get] alone, and one
    that sets it to [v]. *)
Definition keeps {O V : Type} (get : O -> V) (f : O -> O) : Prop :=
  forall o, get (f o) = get o.
Definition sets {O V : Type} (get : O -> V) (f : O -> O) (v : V) : Prop :=
  forall o, get (f o) = v.

(** Go's [comparable] constraint, with the zero value of the type. *)
Class Comparable (T : Type) := {
  zero : T;
  equal : T -> T -> bool;
  equal_spec : forall a b, equal a b = true <-> a = b
}.

#[export] Instance Comparable_string : Comparable string :=
  {| zero := ""; equal := String.eqb; equal_spec := String.eqb_eq |}.

#[export] Instance Comparable_int64 : Comparable Z :=
  {| zero := 0%Z; equal := Z.eqb; equal_spec := Z.eqb_eq |}.

(** ** Package errors *)

Module errors.

(** An error the SDK hands back.  The SDK does not import this library, so
      none of its errors is, or wraps, one of the library's own values. *)
Inductive SdkError : Type :=
  | APIError (code message : string).

(** Operands of a [fmt.Errorf] call other than the one bound to [%w]. *)
Inductive Arg : Type :=
  | ArgString (s : string)
  | ArgDuration (d : Duration)
  | ArgError (e : SdkError).

(** Where an [*errors.errorString] lives.  A package-level [var] is
      allocated once and is told apart by its name; [errors.New] inside a
      function body allocates a new value on every call. *)
Inductive alloc : Type :=
  | PackageVar (name : string)
  | PerCall.

#[warnings="-register-all"] Inductive error : Type :=
  | errorString (a : alloc) (s : string)
  | fmtError (format : string) (args : list Arg)
  | wrapError (format : string) (args : list Arg) (err : error)
  | joinError (errs : list error)
  | sdkError (e : SdkError).

(** [errors.New] in a function body. *)
Definition New (text : string) : error := errorString PerCall text.

(** [fmt.Errorf] without and with a [%w] operand. *)
Definition Errorf (format : string) (args : list Arg) : error :=
    fmtError format args.
Definition Errorf_w (format : string) (args : list Arg) (err : error) : error :=
    wrapError format args err.

(** [errors.Join] of non-nil errors. *)
Definition Join (errs : list error) : error := joinError errs.

(** The comparison [err == target] of two error interfaces: the same
      pointer.  It is decided for package-level values, which is what a
      caller compares against. *)
Definition same (err target : error) : bool :=
    match err, target with
    | errorString (PackageVar n) _, errorString (PackageVar m) _ => String.eqb n m
    | _, _ => false
    end.

(** [errors.Is]: walk the chain of [Unwrap() error] and the trees of
      [Unwrap() []error]. *)
Fixpoint Is (err target : error) : bool :=
    same err target ||
    match err with
    | wrapError _ _ inner => Is inner target
    | joinError errs =>
        (fix any (l : list error) : bool :=
           match l with
           | [] => false
           | e :: l' => Is e target || any l'
           end) errs
    | errorString _ _ | fmtError _ _ | sdkError _ => false
    end.

End errors.

Import errors.

(** ** Package net/url

    [url.QueryEscape] belongs to Go's standard library; it is written here
    as that library implements it, byte by byte, with its inverse. *)

Module url.

Definition byte_in (lo hi c : ascii) : bool :=
    (N_of_ascii lo <=? N_of_ascii c)%N && (N_of_ascii c <=? N_of_ascii hi)%N.

(** [shouldEscape(c, encodeQueryComponent)]: letters, digits and the marks
      [-], [_], [.], [~] stay; every other byte is escaped. *)
Definition shouldEscape (c : ascii) : bool :=
    if byte_in "a" "z" c || byte_in "A" "Z" c || byte_in "0" "9" c then false
    else if Ascii.eqb c "-" || Ascii.eqb c "_" || Ascii.eqb c "." || Ascii.eqb c "~"
    then false
    else true.

Definition upperhex : string := "0123456789ABCDEF".

Definition hexdigit (n : N) : ascii :=
    match String.get (N.to_nat n) upperhex with
    | Some d => d
    | None => "0"%char
    end.

(** One byte of [escape(s, encodeQueryComponent)]. *)
Definition escape_byte (c : ascii) : string :=
    if Ascii.eqb c " " then "+"
    else if shouldEscape c then
      String "%" (String (hexdigit (N.shiftr (N_of_ascii c) 4))
                 (String (hexdigit (N.land (N_of_ascii c) 15)) EmptyString))
    else String c EmptyString.

Fixpoint QueryEscape (s : string) : string :=
    match s with
    | EmptyString => EmptyString
    | String c rest => escape_byte c ++ QueryEscape rest
    end.

Definition ishex (c : ascii) : bool :=
    byte_in "0" "9" c || byte_in "a" "f" c || byte_in "A" "F" c.

Definition unhex (c : ascii) : N :=
    if byte_in "0" "9" c then (N_of_ascii c - N_of_ascii "0")%N
    else if byte_in "a" "f" c then (N_of_ascii c - N_of_ascii "a" + 10)%N
    else if byte_in "A" "F" c then (N_of_ascii c - N_of_ascii "A" + 10)%N
    else 0%N.

(** [QueryUnescape]: [None] stands for the [EscapeError] of a [%] that is
      not followed by two hexadecimal digits. *)
Fixpoint QueryUnescape (s : string) : option string :=
    match s with
    | EmptyString => Some EmptyString
    | String c rest =>
        if Ascii.eqb c "%" then
          match rest with
          | String a (String b rest') =>
              if ishex a && ishex b then
                option_map
                  (String (ascii_of_N (N.lor (N.shiftl (unhex a) 4) (unhex b))))
                  (QueryUnescape rest')
              else None
          | _ => None
          end
        else if Ascii.eqb c "+" then option_map (String " ") (QueryUnescape rest)
        else option_map (String c) (QueryUnescape rest)
    end.

(** A byte that stands for itself in a header value: visible ASCII other
    than the semicolon (so neither a space, a control byte such as CR or LF,
    nor a byte of a multi-byte rune). *)
Definition plain_byte (c : ascii) : bool :=
  (33 <=? N_of_ascii c)%N && (N_of_ascii c <=? 126)%N && negb (Ascii.eqb c ";").

(** All bytes of [s] satisfy [p]. *)
Fixpoint every (p : ascii -> bool) (s : string) : bool :=
  match s with
  | EmptyString => true
  | String c rest => p c && every p rest
  end.

End url.

(** ** The AWS SDK as the library sees it *)

(** [net/http]: response headers.  The keys the library asks for are already
    in canonical form, so [Get] is a plain lookup of the first value. *)
Module http.

Definition Header := list (string * list string).

Fixpoint Get (h : Header) (key : string) : string :=
  match h with
  | [] => ""
  | (k, vs) :: rest =>
      if String.eqb k key then match vs with [] => "" | v :: _ => v end
      else Get rest key
  end.

Definition MethodGet : string := "GET".
Definition MethodPut : string := "PUT".
Definition MethodDelete : string := "DELETE".

End http.

Module aws.

Inductive Credentials : Type :=
| StaticCredentials (key secret session : string).

(** [aws.Config], as far as [s3.NewFromConfig] reads it. *)
Record Config : Type := {
  Region : string;
  ConfigCredentials : option Credentials
}.

End aws.

Module s3.

(** A middleware registered through [Options.APIOptions]. *)
Inductive APIOption : Type :=
| AddHeaderValue (header value : string).

Record Options : Type := {
  BaseEndpoint : option string;
  Region : string;
  UsePathStyle : bool;
  Credentials : option aws.Credentials;
  APIOptions : list APIOption
}.

(** A Go function on a pointer to [s3.Options], as a call takes them. *)
Definition OptFn := Options -> Options.

Record Client : Type := { options : Options }.

Definition NewFromConfig (cfg : aws.Config) (optFns : list OptFn) : Client :=
  {| options :=
       range_apply optFns
         {| BaseEndpoint := None;
            Region := aws.Region cfg;
            UsePathStyle := false;
            Credentials := aws.ConfigCredentials cfg;
            APIOptions := [] |} |}.

(** The headers a call made with [optFns] adds to its request. *)
Definition added_headers (optFns : list OptFn) : list APIOption :=
  APIOptions
    (range_apply optFns
       {| BaseEndpoint := None; Region := ""; UsePathStyle := false;
          Credentials := None; APIOptions := [] |}).

Module Bucket.
Record t : Type := { Name : option string; CreationDate : option Time }.
End Bucket.

Module Object.
Record t : Type := {
  Key : option string;
  ETag : option string;
  Size : option Z;
  LastModified : option Time
}.
End Object.

Module CreateBucketInput.
Record t : Type := { Bucket : option string }.
End CreateBucketInput.

Module DeleteBucketInput.
Record t : Type := { Bucket : option string }.
End DeleteBucketInput.

Module HeadBucketInput.
Record t : Type := { Bucket : option string }.
End HeadBucketInput.

Module ListBucketsInput.
Record t : Type := { ContinuationToken : option string }.
End ListBucketsInput.

Module ListObjectsV2Input.
Record t : Type := {
  Bucket : option string;
  Delimiter : option string;
  Prefix : option string;
  MaxKeys : option Z;
  ContinuationToken : option string;
  StartAfter : option string
}.
End ListObjectsV2Input.

Module GetObjectInput.
Record t : Type := { Bucket : option string; Key : option string }.
End GetObjectInput.

Module HeadObjectInput.
Record t : Type := { Bucket : option string; Key : option string }.
End HeadObjectInput.

Module DeleteObjectInput.
Record t : Type := { Bucket : option string; Key : option string }.
End DeleteObjectInput.

Module PutObjectInput.
Record t : Type := {
  Bucket : option string;
  Key : option string;
  Body : option string;
  ContentType : option string;
  ContentDisposition : option string;
  ContentLength : option Z
}.
End PutObjectInput.

Module CopyObjectInput.
Record t : Type := {
  Bucket : option string;
  CopySource : option string;
  Key : option string
}.
End CopyObjectInput.

Module CreateBucketOutput.
Record t : Type := { Location : option string }.
End CreateBucketOutput.

Module DeleteBucketOutput.
Record t : Type := { RequestID : string }.
End DeleteBucketOutput.

(** [RawResponse] is [middleware.GetRawResponse(ResultMetadata)] read as an
    [*http.Response]: [None] when the type assertion fails. *)
Module HeadBucketOutput.
Record t : Type := { RawResponse : option http.Header }.
End HeadBucketOutput.

Module ListBucketsOutput.
Record t : Type := {
  Buckets : list Bucket.t;
  ContinuationToken : option string
}.
End ListBucketsOutput.

Module ListObjectsV2Output.
Record t : Type := {
  Contents : list Object.t;
  IsTruncated : option bool;
  NextContinuationToken : option string
}.
End ListObjectsV2Output.

Module GetObjectOutput.
Record t : Type := {
  ContentType : option string;
  ETag : option string;
  ContentLength : option Z;
  VersionId : option string;
  LastModified : option Time;
  Metadata : list (string * string);
  Body : option string
}.
End GetObjectOutput.

Module HeadObjectOutput.
Record t : Type := {
  ContentType : option string;
  ContentDisposition : option string;
  ETag : option string;
  ContentLength : option Z;
  VersionId : option string;
  LastModified : option Time;
  Metadata : list (string * string)
}.
End HeadObjectOutput.

Module PutObjectOutput.
Record t : Type := { ETag : option string; VersionId : option string }.
End PutObjectOutput.

Module DeleteObjectOutput.
Record t : Type := { DeleteMarker : option bool }.
End DeleteObjectOutput.

Module CopyObjectOutput.
Record t : Type := { VersionId : option string }.
End CopyObjectOutput.

Module PresignedHTTPRequest.
Record t : Type := { URL : string }.
End PresignedHTTPRequest.

(** What the library asks of the world outside it: the calls on the SDK
    client and on its presign client, [awsConfig.LoadDefaultConfig] and the
    clock. *)
Inductive Op : Type :=
| CreateBucket (params : CreateBucketInput.t) (optFns : list OptFn)
| DeleteBucket (params : DeleteBucketInput.t) (optFns : list OptFn)
| HeadBucket (params : HeadBucketInput.t) (optFns : list OptFn)
| ListBuckets (params : ListBucketsInput.t) (optFns : list OptFn)
| ListObjectsV2 (params : ListObjectsV2Input.t) (optFns : list OptFn)
| GetObject (params : GetObjectInput.t) (optFns : list OptFn)
| HeadObject (params : HeadObjectInput.t) (optFns : list OptFn)
| PutObject (params : PutObjectInput.t) (optFns : list OptFn)
| DeleteObject (params : DeleteObjectInput.t) (optFns : list OptFn)
| CopyObject (params : CopyObjectInput.t) (optFns : list OptFn)
| PresignGetObject (params : GetObjectInput.t) (expires : Duration)
| PresignPutObject (params : PutObjectInput.t) (expires : Duration)
| PresignDeleteObject (params : DeleteObjectInput.t) (expires : Duration)
| LoadDefaultConfig
| Now.

(** A call hands back its output or an error, never both; the clock does
    not fail. *)
Definition Reply (o : Op) : Type :=
  match o with
  | CreateBucket _ _ => CreateBucketOutput.t + SdkError
  | DeleteBucket _ _ => DeleteBucketOutput.t + SdkError
  | HeadBucket _ _ => HeadBucketOutput.t + SdkError
  | ListBuckets _ _ => ListBucketsOutput.t + SdkError
  | ListObjectsV2 _ _ => ListObjectsV2Output.t + SdkError
  | GetObject _ _ => GetObjectOutput.t + SdkError
  | HeadObject _ _ => HeadObjectOutput.t + SdkError
  | PutObject _ _ => PutObjectOutput.t + SdkError
  | DeleteObject _ _ => DeleteObjectOutput.t + SdkError
  | CopyObject _ _ => CopyObjectOutput.t + SdkError
  | PresignGetObject _ _ => PresignedHTTPRequest.t + SdkError
  | PresignPutObject _ _ => PresignedHTTPRequest.t + SdkError
  | PresignDeleteObject _ _ => PresignedHTTPRequest.t + SdkError
  | LoadDefaultConfig => aws.Config + SdkError
  | Now => Time
  end%type.

End s3.

(** ** Programs over the SDK *)

(** A Go function body: it returns, panics, or makes a call and goes on with
    the reply. *)
Inductive Prog (A : Type) : Type :=
| Return (a : A)
| Panic
| Call (o : s3.Op) (k : s3.Reply o -> Prog A).

Arguments Return {A} a.
Arguments Panic {A}.
Arguments Call {A} o k.

Fixpoint bind {A B : Type} (p : Prog A) (f : A -> Prog B) : Prog B :=
  match p with
  | Return a => f a
  | Panic => Panic
  | Call o k => Call o (fun r => bind (k r) f)
  end.

Notation "x <- p ;; q" := (bind p (fun x => q))
  (at level 61, p at next level, right associativity).

(** One call, its reply handed back as it is. *)
Definition call (o : s3.Op) : Prog (s3.Reply o) := Call o (fun r => Return r).

(** A call together with the reply it got. *)
Inductive Event : Type :=
| Ev (o : s3.Op) (r : s3.Reply o).

(** The world outside: it answers each call, knowing everything that
    happened before. *)
Definition Service := list Event -> forall o : s3.Op, s3.Reply o.

Inductive Outcome (A : Type) : Type :=
| Returned (a : A)
| Panicked.

Arguments Returned {A} a.
Arguments Panicked {A}.

(** Run a program against a service, from the history [h]; the result is the
    outcome and the history extended with the calls made, oldest first. *)
Fixpoint run {A : Type} (svc : Service) (h : list Event) (p : Prog A)
  : Outcome A * list Event :=
  match p with
  | Return a => (Returned a, h)
  | Panic => (Panicked, h)
  | Call o k => let r := svc h o in run svc (h ++ [Ev o r]) (k r)
  end.

(** Every value a program can return satisfies [Q], whatever the replies. *)
Fixpoint always {A : Type} (Q : A -> Prop) (p : Prog A) : Prop :=
  match p with
  | Return a => Q a
  | Panic => True
  | Call o k => forall r, always Q (k r)
  end.

(** ** Package tigrisheaders *)

Module tigrisheaders.

(** [WithHeader] sets an arbitrary HTTP header on the request. *)
Definition WithHeader (key value : string) : s3.OptFn :=
  fun options =>
    {| s3.BaseEndpoint := s3.BaseEndpoint options;
       s3.Region := s3.Region options;
       s3.UsePathStyle := s3.UsePathStyle options;
       s3.Credentials := s3.Credentials options;
       s3.APIOptions := s3.APIOptions options ++ [s3.AddHeaderValue key value] |}.

(** A Tigris region. *)
Definition Region := string.

(** [strings.Join]. *)
Fixpoint Join (elems : list string) (sep : string) : string :=
  match elems with
  | [] => ""
  | [e] => e
  | e :: rest => e ++ sep ++ Join rest sep
  end.

Definition WithStaticReplicationRegions (regions : list Region) : s3.OptFn :=
  let regionsString := map (fun r : Region => r : string) regions in
  WithHeader "X-Tigris-Regions" (Join regionsString ",").

Definition WithQuery (query : string) : s3.OptFn :=
  WithHeader "X-Tigris-Query" query.

Definition WithIfEtagMatches (etag : string) : s3.OptFn :=
  WithHeader "If-Match" etag.

Definition WithCompareAndSwap : s3.OptFn :=
  WithHeader "X-Tigris-CAS" "true".

Definition WithEnableSnapshot : s3.OptFn :=
  WithHeader "X-Tigris-Enable-Snapshot" "true".

(** The value [fmt.Sprintf] builds for the take-snapshot header. *)
Definition take_snapshot_value (desc : string) : string :=
  "true; name=" ++ url.QueryEscape desc.

Definition WithTakeSnapshot (desc : string) : s3.OptFn :=
  WithHeader "X-Tigris-Snapshot" (take_snapshot_value desc).

Definition WithSnapshotVersion (snapshotVersion : string) : s3.OptFn :=
  WithHeader "X-Tigris-Snapshot-Version" snapshotVersion.

Definition WithRename : s3.OptFn :=
  fun options =>
    {| s3.BaseEndpoint := s3.BaseEndpoint options;
       s3.Region := s3.Region options;
       s3.UsePathStyle := s3.UsePathStyle options;
       s3.Credentials := s3.Credentials options;
       s3.APIOptions :=
         s3.APIOptions options ++ [s3.AddHeaderValue "X-Tigris-Rename" "true"] |}.

(** Modelled from the spec: the helper that names the fork source, called by
    [simplestorage.ForkBucket] and absent from the headers file; the spec has
    the bucket-creation call [annotated with a fork source header], the one
    [storage.CreateBucketFork] writes. *)
Definition WithForkSourceBucket (source : string) : s3.OptFn :=
  WithHeader "X-Tigris-Fork-Source-Bucket" source.

(** Modelled from the spec: the helper of [simplestorage.ListBucketSnapshots],
    absent from the headers file; the spec has the bucket-listing call
    [annotated with a header naming the target bucket], the one
    [storage.ListBucketSnapshots] writes. *)
Definition WithListSnapshots (bucket : string) : s3.OptFn :=
  WithHeader "X-Tigris-Snapshot" bucket.

End tigrisheaders.

(** ** Package storage *)

Module storage.

Definition GlobalEndpoint : string := "https://t3.storage.dev".
Definition FlyEndpoint : string := "https://fly.storage.tigris.dev".

(** [Options] is the set of options that can be configured for the client. *)
Module Options.

Record t : Type := {
  BaseEndpoint : string;
  Region : string;
  UsePathStyle : bool;
  AccessKeyID : string;
  SecretAccessKey : string
}.

Definition defaults (env : Env) : t :=
  {| BaseEndpoint := "https://t3.storage.dev";
     Region := "auto";
     UsePathStyle := false;
     AccessKeyID := env "TIGRIS_STORAGE_ACCESS_KEY_ID";
     SecretAccessKey := env "TIGRIS_STORAGE_SECRET_ACCESS_KEY" |}.

End Options.

Import Options.

Definition Option := Options.t -> Options.t.

Definition WithEndpoint (endpoint : string) : Option :=
  fun o =>
    {| BaseEndpoint := endpoint; Region := Region o;
       UsePathStyle := UsePathStyle o; AccessKeyID := AccessKeyID o;
       SecretAccessKey := SecretAccessKey o |}.

Definition WithFlyEndpoint : Option :=
  fun o =>
    {| BaseEndpoint := FlyEndpoint; Region := Region o;
       UsePathStyle := UsePathStyle o; AccessKeyID := AccessKeyID o;
       SecretAccessKey := SecretAccessKey o |}.

Definition WithGlobalEndpoint : Option :=
  fun o =>
    {| BaseEndpoint := GlobalEndpoint; Region := Region o;
       UsePathStyle := UsePathStyle o; AccessKeyID := AccessKeyID o;
       SecretAccessKey := SecretAccessKey o |}.

Definition WithRegion (region : string) : Option :=
  fun o =>
    {| BaseEndpoint := BaseEndpoint o; Region := region;
       UsePathStyle := UsePathStyle o; AccessKeyID := AccessKeyID o;
       SecretAccessKey := SecretAccessKey o |}.

Definition WithPathStyle (enabled : bool) : Option :=
  fun o =>
    {| BaseEndpoint := BaseEndpoint o; Region := Region o;
       UsePathStyle := enabled; AccessKeyID := AccessKeyID o;
       SecretAccessKey := SecretAccessKey o |}.

Definition WithAccessKeypair (accessKeyID secretAccessKey : string) : Option :=
  fun o =>
    {| BaseEndpoint := BaseEndpoint o; Region := Region o;
       UsePathStyle := UsePathStyle o; AccessKeyID := accessKeyID;
       SecretAccessKey := secretAccessKey |}.

(** [Client] wraps the SDK client.  Methods are called on clients that [New]
    handed out, so a receiver is never nil. *)
Module Client.
Record t : Type := { Client : s3.Client }.
End Client.

(** The closure [New] passes to [s3.NewFromConfig]. *)
Definition configure (o : Options.t) (creds : option aws.Credentials) : s3.OptFn :=
  fun opts =>
    {| s3.BaseEndpoint := Some (BaseEndpoint o);
       s3.Region := Region o;
       s3.UsePathStyle := UsePathStyle o;
       s3.Credentials :=
         match creds with
         | Some c => Some c
         | None => s3.Credentials opts
         end;
       s3.APIOptions := s3.APIOptions opts |}.

(** [New] returns a new S3 client optimized for interactions with Tigris. *)
Definition New (env : Env) (options : list Option) : Prog (Client.t + error) :=
  let o := range_apply options (Options.defaults env) in
  let creds :=
    if negb (AccessKeyID o =? "") && negb (SecretAccessKey o =? "")
    then Some (aws.StaticCredentials (AccessKeyID o) (SecretAccessKey o) "")
    else None in
  r <- call s3.LoadDefaultConfig ;;
  match r with
  | inr err =>
      Return (inr (errors.Errorf_w "failed to load Tigris config: %w" [] (sdkError err)))
  | inl cfg =>
      let cli := s3.NewFromConfig cfg [configure o creds] in
      Return (inl {| Client.Client := cli |})
  end.

(** A method that hands the SDK's pair through untouched. *)
Definition through {Out : Type} (r : Out + SdkError) : Out + error :=
  match r with
  | inl out => inl out
  | inr err => inr (sdkError err)
  end.

Definition CreateBucketFork (c : Client.t) (source target : string)
  (opts : list s3.OptFn) : Prog (s3.CreateBucketOutput.t + error) :=
  let opts := opts ++ [tigrisheaders.WithHeader "X-Tigris-Fork-Source-Bucket" source] in
  r <- call (s3.CreateBucket {| s3.CreateBucketInput.Bucket := Some target |} opts) ;;
  Return (through r).

Definition CreateBucketSnapshot (c : Client.t) (description : string)
  (in_ : s3.CreateBucketInput.t) (opts : list s3.OptFn)
  : Prog (s3.CreateBucketOutput.t + error) :=
  let opts := opts ++ [tigrisheaders.WithTakeSnapshot description] in
  r <- call (s3.CreateBucket in_ opts) ;;
  Return (through r).

Definition CreateSnapshotEnabledBucket (c : Client.t)
  (in_ : s3.CreateBucketInput.t) (opts : list s3.OptFn)
  : Prog (s3.CreateBucketOutput.t + error) :=
  let opts := opts ++ [tigrisheaders.WithEnableSnapshot] in
  r <- call (s3.CreateBucket in_ opts) ;;
  Return (through r).

(** The fork and snapshot metadata of a bucket. *)
Module HeadBucketForkOrSnapshotOutput.
Record t : Type := {
  SnapshotsEnabled : bool;
  SourceBucket : string;
  SourceBucketSnapshot : string;
  IsForkParent : bool
}.
End HeadBucketForkOrSnapshotOutput.

Definition HeadBucketForkOrSnapshot (c : Client.t) (in_ : s3.HeadBucketInput.t)
  (opts : list s3.OptFn) : Prog (HeadBucketForkOrSnapshotOutput.t + error) :=
  r <- call (s3.HeadBucket in_ opts) ;;
  match r with
  | inr err => Return (inr (sdkError err))
  | inl resp =>
      match s3.HeadBucketOutput.RawResponse resp with
      | None => Return (inr (errors.Errorf "unexpected response type from middleware" []))
      | Some header =>
          Return (inl
            {| HeadBucketForkOrSnapshotOutput.SnapshotsEnabled :=
                 http.Get header "X-Tigris-Enable-Snapshot" =? "true";
               HeadBucketForkOrSnapshotOutput.SourceBucket :=
                 http.Get header "X-Tigris-Fork-Source-Bucket";
               HeadBucketForkOrSnapshotOutput.SourceBucketSnapshot :=
                 http.Get header "X-Tigris-Fork-Source-Bucket-Snapshot";
               HeadBucketForkOrSnapshotOutput.IsForkParent :=
                 http.Get header "X-Tigris-Is-Fork-Parent" =? "true" |})
      end
  end.

Definition ListBucketSnapshots (c : Client.t) (bucketName : string)
  (opts : list s3.OptFn) : Prog (s3.ListBucketsOutput.t + error) :=
  let opts := opts ++ [tigrisheaders.WithHeader "X-Tigris-Snapshot" bucketName] in
  r <- call (s3.ListBuckets {| s3.ListBucketsInput.ContinuationToken := None |} opts) ;;
  Return (through r).

Definition RenameObject (c : Client.t) (in_ : s3.CopyObjectInput.t)
  (opts : list s3.OptFn) : Prog (s3.CopyObjectOutput.t + error) :=
  let opts := opts ++ [tigrisheaders.WithRename] in
  r <- call (s3.CopyObject in_ opts) ;;
  Return (through r).

End storage.

(** ** Package simplestorage *)

Module simplestorage.

(** *** Errors *)

Definition ErrNoBucketName : error :=
  errorString (PackageVar "ErrNoBucketName")
    "bucket name not set: provide the TIGRIS_STORAGE_BUCKET environment variable or use WithBucket option".

Definition ErrBucketNotFound : error :=
  errorString (PackageVar "ErrBucketNotFound") "simplestorage: bucket not found".

Definition ErrBucketNotEmpty : error :=
  errorString (PackageVar "ErrBucketNotEmpty") "simplestorage: bucket not empty".

Definition ErrSnapshotRequired : error :=
  errorString (PackageVar "ErrSnapshotRequired")
    "simplestorage: snapshot version required for this operation".

(** *** Pointer helpers *)

(** [lower] returns the value pointed to by [p], or [defaultVal] if [p] is
    nil. *)
Definition lower {T : Type} (p : option T) (defaultVal : T) : T :=
  match p with
  | Some v => v
  | None => defaultVal
  end.

(** [raise] returns a pointer to [v], or nil if [v] is the zero value. *)
Definition raise {T : Type} `{Comparable T} (v : T) : option T :=
  if equal v zero then None else Some v.

(** *** Options of client creation *)

Module Options.

Record t : Type := {
  BucketName : string;
  AccessKeyID : string;
  SecretAccessKey : string;
  BaseEndpoint : string;
  Region : string;
  UsePathStyle : bool
}.

Definition defaults (env : Env) : t :=
  {| BucketName := env "TIGRIS_STORAGE_BUCKET";
     AccessKeyID := env "TIGRIS_STORAGE_ACCESS_KEY_ID";
     SecretAccessKey := env "TIGRIS_STORAGE_SECRET_ACCESS_KEY";
     BaseEndpoint := storage.GlobalEndpoint;
     Region := "auto";
     UsePathStyle := false |}.

End Options.

Definition Option := Options.t -> Options.t.

Definition WithBucket (bucketName : string) : Option :=
  fun o =>
    {| Options.BucketName := bucketName;
       Options.AccessKeyID := Options.AccessKeyID o;
       Options.SecretAccessKey := Options.SecretAccessKey o;
       Options.BaseEndpoint := Options.BaseEndpoint o;
       Options.Region := Options.Region o;
       Options.UsePathStyle := Options.UsePathStyle o |}.

Definition WithEndpoint (endpoint : string) : Option :=
  fun o =>
    {| Options.BucketName := Options.BucketName o;
       Options.AccessKeyID := Options.AccessKeyID o;
       Options.SecretAccessKey := Options.SecretAccessKey o;
       Options.BaseEndpoint := endpoint;
       Options.Region := Options.Region o;
       Options.UsePathStyle := Options.UsePathStyle o |}.

Definition WithFlyEndpoint : Option := WithEndpoint storage.FlyEndpoint.

Definition WithGlobalEndpoint : Option := WithEndpoint storage.GlobalEndpoint.

Definition WithRegion (region : string) : Option :=
  fun o =>
    {| Options.BucketName := Options.BucketName o;
       Options.AccessKeyID := Options.AccessKeyID o;
       Options.SecretAccessKey := Options.SecretAccessKey o;
       Options.BaseEndpoint := Options.BaseEndpoint o;
       Options.Region := region;
       Options.UsePathStyle := Options.UsePathStyle o |}.

Definition WithPathStyle (enabled : bool) : Option :=
  fun o =>
    {| Options.BucketName := Options.BucketName o;
       Options.AccessKeyID := Options.AccessKeyID o;
       Options.SecretAccessKey := Options.SecretAccessKey o;
       Options.BaseEndpoint := Options.BaseEndpoint o;
       Options.Region := Options.Region o;
       Options.UsePathStyle := enabled |}.

Definition WithAccessKeypair (accessKeyID secretAccessKey : string) : Option :=
  fun o =>
    {| Options.BucketName := Options.BucketName o;
       Options.AccessKeyID := accessKeyID;
       Options.SecretAccessKey := secretAccessKey;
       Options.BaseEndpoint := Options.BaseEndpoint o;
       Options.Region := Options.Region o;
       Options.UsePathStyle := Options.UsePathStyle o |}.

(** *** Options of one call *)

Module ClientOptions.

Record t : Type := {
  BucketName : string;
  S3Options : list s3.OptFn;
  StartAfter : option string;
  MaxKeys : option Z;
  Delimiter : option string;
  Prefix : option string;
  PaginationToken : option string;
  ContentType : option string;
  ContentDisposition : option string
}.

(** [defaults] populates client options from the global [Options]. *)
Definition defaults (o : Options.t) : t :=
  {| BucketName := Options.BucketName o;
     S3Options := [];
     StartAfter := None;
     MaxKeys := None;
     Delimiter := None;
     Prefix := None;
     PaginationToken := None;
     ContentType := None;
     ContentDisposition := None |}.

Definition set_BucketName (v : string) (co : t) : t :=
  {| BucketName := v; S3Options := S3Options co; StartAfter := StartAfter co;
     MaxKeys := MaxKeys co; Delimiter := Delimiter co; Prefix := Prefix co;
     PaginationToken := PaginationToken co; ContentType := ContentType co;
     ContentDisposition := ContentDisposition co |}.

Definition set_S3Options (v : list s3.OptFn) (co : t) : t :=
  {| BucketName := BucketName co; S3Options := v; StartAfter := StartAfter co;
     MaxKeys := MaxKeys co; Delimiter := Delimiter co; Prefix := Prefix co;
     PaginationToken := PaginationToken co; ContentType := ContentType co;
     ContentDisposition := ContentDisposition co |}.

Definition set_StartAfter (v : option string) (co : t) : t :=
  {| BucketName := BucketName co; S3Options := S3Options co; StartAfter := v;
     MaxKeys := MaxKeys co; Delimiter := Delimiter co; Prefix := Prefix co;
     PaginationToken := PaginationToken co; ContentType := ContentType co;
     ContentDisposition := ContentDisposition co |}.

Definition set_MaxKeys (v : option Z) (co : t) : t :=
  {| BucketName := BucketName co; S3Options := S3Options co;
     StartAfter := StartAfter co; MaxKeys := v; Delimiter := Delimiter co;
     Prefix := Prefix co; PaginationToken := PaginationToken co;
     ContentType := ContentType co; ContentDisposition := ContentDisposition co |}.

Definition set_Delimiter (v : option string) (co : t) : t :=
  {| BucketName := BucketName co; S3Options := S3Options co;
     StartAfter := StartAfter co; MaxKeys := MaxKeys co; Delimiter := v;
     Prefix := Prefix co; PaginationToken := PaginationToken co;
     ContentType := ContentType co; ContentDisposition := ContentDisposition co |}.

Definition set_Prefix (v : option string) (co : t) : t :=
  {| BucketName := BucketName co; S3Options := S3Options co;
     StartAfter := StartAfter co; MaxKeys := MaxKeys co;
     Delimiter := Delimiter co; Prefix := v;
     PaginationToken := PaginationToken co; ContentType := ContentType co;
     ContentDisposition := ContentDisposition co |}.

Definition set_PaginationToken (v : option string) (co : t) : t :=
  {| BucketName := BucketName co; S3Options := S3Options co;
     StartAfter := StartAfter co; MaxKeys := MaxKeys co;
     Delimiter := Delimiter co; Prefix := Prefix co; PaginationToken := v;
     ContentType := ContentType co; ContentDisposition := ContentDisposition co |}.

Definition set_ContentType (v : option string) (co : t) : t :=
  {| BucketName := BucketName co; S3Options := S3Options co;
     StartAfter := StartAfter co; MaxKeys := MaxKeys co;
     Delimiter := Delimiter co; Prefix := Prefix co;
     PaginationToken := PaginationToken co; ContentType := v;
     ContentDisposition := ContentDisposition co |}.

Definition set_ContentDisposition (v : option string) (co : t) : t :=
  {| BucketName := BucketName co; S3Options := S3Options co;
     StartAfter := StartAfter co; MaxKeys := MaxKeys co;
     Delimiter := Delimiter co; Prefix := Prefix co;
     PaginationToken := PaginationToken co; ContentType := ContentType co;
     ContentDisposition := v |}.

End ClientOptions.

Definition ClientOption := ClientOptions.t -> ClientOptions.t.

Definition OverrideBucket (bucket : string) : ClientOption :=
  fun co => ClientOptions.set_BucketName bucket co.

Definition WithS3Options (opts : list s3.OptFn) : ClientOption :=
  fun co => ClientOptions.set_S3Options (ClientOptions.S3Options co ++ opts) co.

Definition WithStartAfter (startAfter : string) : ClientOption :=
  fun co => ClientOptions.set_StartAfter (Some startAfter) co.

Definition WithMaxKeys (maxKeys : Z) : ClientOption :=
  fun co => ClientOptions.set_MaxKeys (Some maxKeys) co.

Definition WithDelimiter (delimiter : string) : ClientOption :=
  fun co => ClientOptions.set_Delimiter (Some delimiter) co.

Definition WithPrefix (prefix : string) : ClientOption :=
  fun co => ClientOptions.set_Prefix (Some prefix) co.

Definition WithPaginationToken (token : string) : ClientOption :=
  fun co => ClientOptions.set_PaginationToken (Some token) co.

Definition WithContentType (contentType : string) : ClientOption :=
  fun co => ClientOptions.set_ContentType (Some contentType) co.

Definition WithContentDisposition (disposition : string) : ClientOption :=
  fun co => ClientOptions.set_ContentDisposition (Some disposition) co.

(** *** Options of a bucket operation *)

Module BucketOptions.

(** Modelled from the spec: the field [ForceDelete], which [DeleteBucket]
    reads and the bucket-options file does not declare; the spec's
    force flag of DeleteBucket, unset by default.  The other fields are the
    declared ones. *)
Record t : Type := {
  EnableSnapshot : bool;
  SnapshotVersion : string;
  ForceDelete : bool;
  Region : string;
  MaxKeys : option Z;
  ContinuationToken : option string;
  S3Options : list s3.OptFn
}.

(** [defaults] populates [BucketOptions] with default values. *)
Definition defaults : t :=
  {| EnableSnapshot := false;
     SnapshotVersion := "";
     ForceDelete := false;
     Region := "";
     MaxKeys := None;
     ContinuationToken := None;
     S3Options := [] |}.

End BucketOptions.

Definition BucketOption := BucketOptions.t -> BucketOptions.t.

Definition WithEnableSnapshot : BucketOption :=
  fun o =>
    {| BucketOptions.EnableSnapshot := true;
       BucketOptions.SnapshotVersion := BucketOptions.SnapshotVersion o;
       BucketOptions.ForceDelete := BucketOptions.ForceDelete o;
       BucketOptions.Region := BucketOptions.Region o;
       BucketOptions.MaxKeys := BucketOptions.MaxKeys o;
       BucketOptions.ContinuationToken := BucketOptions.ContinuationToken o;
       BucketOptions.S3Options :=
         BucketOptions.S3Options o ++ [tigrisheaders.WithEnableSnapshot] |}.

Definition WithSnapshotVersion (version : string) : BucketOption :=
  fun o =>
    {| BucketOptions.EnableSnapshot := BucketOptions.EnableSnapshot o;
       BucketOptions.SnapshotVersion := version;
       BucketOptions.ForceDelete := BucketOptions.ForceDelete o;
       BucketOptions.Region := BucketOptions.Region o;
       BucketOptions.MaxKeys := BucketOptions.MaxKeys o;
       BucketOptions.ContinuationToken := BucketOptions.ContinuationToken o;
       BucketOptions.S3Options :=
         BucketOptions.S3Options o ++ [tigrisheaders.WithSnapshotVersion version] |}.

(** Modelled from the spec: the option that sets the force flag of
    DeleteBucket, used by the tests and absent from the bucket-options file
    as it stands; it sets [ForceDelete] and nothing else. *)
Definition WithForceDelete : BucketOption :=
  fun o =>
    {| BucketOptions.EnableSnapshot := BucketOptions.EnableSnapshot o;
       BucketOptions.SnapshotVersion := BucketOptions.SnapshotVersion o;
       BucketOptions.ForceDelete := true;
       BucketOptions.Region := BucketOptions.Region o;
       BucketOptions.MaxKeys := BucketOptions.MaxKeys o;
       BucketOptions.ContinuationToken := BucketOptions.ContinuationToken o;
       BucketOptions.S3Options := BucketOptions.S3Options o |}.

Definition WithBucketRegion (region : string) : BucketOption :=
  fun o =>
    {| BucketOptions.EnableSnapshot := BucketOptions.EnableSnapshot o;
       BucketOptions.SnapshotVersion := BucketOptions.SnapshotVersion o;
       BucketOptions.ForceDelete := BucketOptions.ForceDelete o;
       BucketOptions.Region := region;
       BucketOptions.MaxKeys := BucketOptions.MaxKeys o;
       BucketOptions.ContinuationToken := BucketOptions.ContinuationToken o;
       BucketOptions.S3Options :=
         BucketOptions.S3Options o
           ++ [tigrisheaders.WithStaticReplicationRegions [region]] |}.

Definition WithListLimit (limit : Z) : BucketOption :=
  fun o =>
    {| BucketOptions.EnableSnapshot := BucketOptions.EnableSnapshot o;
       BucketOptions.SnapshotVersion := BucketOptions.SnapshotVersion o;
       BucketOptions.ForceDelete := BucketOptions.ForceDelete o;
       BucketOptions.Region := BucketOptions.Region o;
       BucketOptions.MaxKeys := Some limit;
       BucketOptions.ContinuationToken := BucketOptions.ContinuationToken o;
       BucketOptions.S3Options := BucketOptions.S3Options o |}.

Definition WithListToken (token : string) : BucketOption :=
  fun o =>
    {| BucketOptions.EnableSnapshot := BucketOptions.EnableSnapshot o;
       BucketOptions.SnapshotVersion := BucketOptions.SnapshotVersion o;
       BucketOptions.ForceDelete := BucketOptions.ForceDelete o;
       BucketOptions.Region := BucketOptions.Region o;
       BucketOptions.MaxKeys := BucketOptions.MaxKeys o;
       BucketOptions.ContinuationToken := Some token;
       BucketOptions.S3Options := BucketOptions.S3Options o |}.

(** *** The client and its records *)

(** [Client] is the high-level client; [cli] is never nil in a client that
    [New] handed out. *)
Module Client.
Record t : Type := { cli : storage.Client.t; options : Options.t }.
End Client.

(** [Object] contains metadata about an individual object.  [Body] is the
    reader, nil or the bytes it will give. *)
Module Object.
Record t : Type := {
  Bucket : string;
  Key : string;
  ContentType : string;
  ContentDisposition : string;
  Etag : string;
  Version : string;
  Size : Z;
  LastModified : Time;
  Metadata : list (string * string);
  URL : string;
  Body : option string
}.
End Object.

Module ListResult.
Record t : Type := {
  Items : list Object.t;
  NextToken : string;
  HasMore : bool
}.
End ListResult.

Module BucketInfo.
Record t : Type := {
  Name : string;
  Created : Time;
  SnapshotsEnabled : bool;
  IsForkParent : bool;
  SourceBucket : string;
  SourceSnapshot : string
}.
End BucketInfo.

Module BucketList.
Record t : Type := {
  Buckets : list BucketInfo.t;
  NextToken : string;
  Truncated : bool
}.
End BucketList.

Module SnapshotInfo.
Record t : Type := {
  Name : string;
  Version : string;
  Created : Time;
  Bucket : string
}.
End SnapshotInfo.

Module SnapshotList.
Record t : Type := {
  Snapshots : list SnapshotInfo.t;
  Bucket : string
}.
End SnapshotList.

(** *** Client creation *)

(** [New] creates a new [Client] based on the options provided and defaults
    loaded from the environment. *)
Definition New (env : Env) (options : list Option) : Prog (Client.t + error) :=
  let o := range_apply options (Options.defaults env) in
  let errs := if Options.BucketName o =? "" then [ErrNoBucketName] else [] in
  if negb (Nat.eqb (length errs) 0) then
    Return (inr (errors.Errorf_w "simplestorage: can't create client: %w" []
                   (errors.Join errs)))
  else
    let storageOpts :=
      (if negb (Options.BaseEndpoint o =? storage.GlobalEndpoint)
       then [storage.WithEndpoint (Options.BaseEndpoint o)] else [])
      ++ [storage.WithRegion (Options.Region o)]
      ++ [storage.WithPathStyle (Options.UsePathStyle o)]
      ++ (if negb (Options.AccessKeyID o =? "")
             && negb (Options.SecretAccessKey o =? "")
          then [storage.WithAccessKeypair (Options.AccessKeyID o)
                  (Options.SecretAccessKey o)]
          else []) in
    r <- storage.New env storageOpts ;;
    match r with
    | inr err =>
        Return (inr (errors.Errorf_w
                       "simplestorage: can't create storage client: %w" [] err))
    | inl cli => Return (inl {| Client.cli := cli; Client.options := o |})
    end.

(** *** Object operations *)

(** [Get] fetches the contents of an object and its metadata. *)
Definition Get (c : Client.t) (key : string) (opts : list ClientOption)
  : Prog (Object.t + error) :=
  let o := range_apply opts (ClientOptions.defaults (Client.options c)) in
  r <- call (s3.GetObject
               {| s3.GetObjectInput.Bucket := Some (ClientOptions.BucketName o);
                  s3.GetObjectInput.Key := Some key |}
               (ClientOptions.S3Options o)) ;;
  match r with
  | inr err =>
      Return (inr (errors.Errorf "simplestorage: can't get %s/%s: %v"
                     [ArgString (ClientOptions.BucketName o); ArgString key;
                      ArgError err]))
  | inl resp =>
      Return (inl
        {| Object.Bucket := ClientOptions.BucketName o;
           Object.Key := key;
           Object.ContentType :=
             lower (s3.GetObjectOutput.ContentType resp) "application/octet-stream";
           Object.ContentDisposition := "";
           Object.Etag := lower (s3.GetObjectOutput.ETag resp) "";
           Object.Version := lower (s3.GetObjectOutput.VersionId resp) "";
           Object.Size := lower (s3.GetObjectOutput.ContentLength resp) 0%Z;
           Object.LastModified :=
             lower (s3.GetObjectOutput.LastModified resp) Time_zero;
           Object.Metadata := s3.GetObjectOutput.Metadata resp;
           Object.URL := "";
           Object.Body := s3.GetObjectOutput.Body resp |})
  end.

(** [Head] retrieves metadata for an object without downloading it. *)
Definition Head (c : Client.t) (key : string) (opts : list ClientOption)
  : Prog (Object.t + error) :=
  let o := range_apply opts (ClientOptions.defaults (Client.options c)) in
  r <- call (s3.HeadObject
               {| s3.HeadObjectInput.Bucket := Some (ClientOptions.BucketName o);
                  s3.HeadObjectInput.Key := Some key |}
               (ClientOptions.S3Options o)) ;;
  match r with
  | inr err =>
      Return (inr (errors.Errorf "simplestorage: can't head %s/%s: %v"
                     [ArgString (ClientOptions.BucketName o); ArgString key;
                      ArgError err]))
  | inl resp =>
      Return (inl
        {| Object.Bucket := ClientOptions.BucketName o;
           Object.Key := key;
           Object.ContentType :=
             lower (s3.HeadObjectOutput.ContentType resp) "application/octet-stream";
           Object.ContentDisposition :=
             lower (s3.HeadObjectOutput.ContentDisposition resp) "";
           Object.Etag := lower (s3.HeadObjectOutput.ETag resp) "";
           Object.Version := lower (s3.HeadObjectOutput.VersionId resp) "";
           Object.Size := lower (s3.HeadObjectOutput.ContentLength resp) 0%Z;
           Object.LastModified :=
             lower (s3.HeadObjectOutput.LastModified resp) Time_zero;
           Object.Metadata := s3.HeadObjectOutput.Metadata resp;
           Object.URL := "";
           Object.Body := None |})
  end.

(** The request [Put] sends for [obj] under the resolved options [o]. *)
Definition put_request (o : ClientOptions.t) (obj : Object.t) : s3.PutObjectInput.t :=
  {| s3.PutObjectInput.Bucket := Some (ClientOptions.BucketName o);
     s3.PutObjectInput.Key := Some (Object.Key obj);
     s3.PutObjectInput.Body := Object.Body obj;
     s3.PutObjectInput.ContentType := raise (Object.ContentType obj);
     s3.PutObjectInput.ContentDisposition := None;
     s3.PutObjectInput.ContentLength := raise (Object.Size obj) |}.

(** [Put] puts the contents of an object into Tigris; it updates the bucket,
    entity tag and version of the record it was given and returns it. *)
Definition Put (c : Client.t) (obj : Object.t) (opts : list ClientOption)
  : Prog (Object.t + error) :=
  let o := range_apply opts (ClientOptions.defaults (Client.options c)) in
  r <- call (s3.PutObject (put_request o obj) (ClientOptions.S3Options o)) ;;
  match r with
  | inr err =>
      Return (inr (errors.Errorf "simplestorage: can't put %s/%s: %v"
                     [ArgString (ClientOptions.BucketName o);
                      ArgString (Object.Key obj); ArgError err]))
  | inl resp =>
      Return (inl
        {| Object.Bucket := ClientOptions.BucketName o;
           Object.Key := Object.Key obj;
           Object.ContentType := Object.ContentType obj;
           Object.ContentDisposition := Object.ContentDisposition obj;
           Object.Etag := lower (s3.PutObjectOutput.ETag resp) "";
           Object.Version := lower (s3.PutObjectOutput.VersionId resp) "";
           Object.Size := Object.Size obj;
           Object.LastModified := Object.LastModified obj;
           Object.Metadata := Object.Metadata obj;
           Object.URL := Object.URL obj;
           Object.Body := Object.Body obj |})
  end.

(** [Delete] removes an object from Tigris. *)
Definition Delete (c : Client.t) (key : string) (opts : list ClientOption)
  : Prog (option error) :=
  let o := range_apply opts (ClientOptions.defaults (Client.options c)) in
  r <- call (s3.DeleteObject
               {| s3.DeleteObjectInput.Bucket := Some (ClientOptions.BucketName o);
                  s3.DeleteObjectInput.Key := Some key |}
               (ClientOptions.S3Options o)) ;;
  match r with
  | inr err =>
      Return (Some (errors.Errorf "simplestorage: can't delete %s/%s: %v"
                      [ArgString (ClientOptions.BucketName o); ArgString key;
                       ArgError err]))
  | inl _ => Return None
  end.

(** The entry [List] builds for one listed object. *)
Definition list_item (bucket : string) (obj : s3.Object.t) : Object.t :=
  {| Object.Bucket := bucket;
     Object.Key := lower (s3.Object.Key obj) "";
     Object.ContentType := "";
     Object.ContentDisposition := "";
     Object.Etag := lower (s3.Object.ETag obj) "";
     Object.Version := "";
     Object.Size := lower (s3.Object.Size obj) 0%Z;
     Object.LastModified := lower (s3.Object.LastModified obj) Time_zero;
     Object.Metadata := [];
     Object.URL := "";
     Object.Body := None |}.

(** The loop of [List]: one appended entry per listed object. *)
Fixpoint list_items (bucket : string) (contents : list s3.Object.t)
  (items : list Object.t) : list Object.t :=
  match contents with
  | [] => items
  | obj :: rest => list_items bucket rest (items ++ [list_item bucket obj])
  end.

(** The request [List] sends under the resolved options [o]. *)
Definition list_request (o : ClientOptions.t) : s3.ListObjectsV2Input.t :=
  {| s3.ListObjectsV2Input.Bucket := Some (ClientOptions.BucketName o);
     s3.ListObjectsV2Input.Delimiter := ClientOptions.Delimiter o;
     s3.ListObjectsV2Input.Prefix := ClientOptions.Prefix o;
     s3.ListObjectsV2Input.MaxKeys := ClientOptions.MaxKeys o;
     s3.ListObjectsV2Input.ContinuationToken := ClientOptions.PaginationToken o;
     s3.ListObjectsV2Input.StartAfter := ClientOptions.StartAfter o |}.

(** [List] returns a list of objects matching the given criteria. *)
Definition List (c : Client.t) (opts : list ClientOption)
  : Prog (ListResult.t + error) :=
  let o := range_apply opts (ClientOptions.defaults (Client.options c)) in
  r <- call (s3.ListObjectsV2 (list_request o) (ClientOptions.S3Options o)) ;;
  match r with
  | inr err =>
      Return (inr (errors.Errorf "simplestorage: can't list %s: %v"
                     [ArgString (ClientOptions.BucketName o); ArgError err]))
  | inl resp =>
      Return (inl
        {| ListResult.Items :=
             list_items (ClientOptions.BucketName o)
               (s3.ListObjectsV2Output.Contents resp) [];
           ListResult.NextToken :=
             lower (s3.ListObjectsV2Output.NextContinuationToken resp) "";
           ListResult.HasMore :=
             lower (s3.ListObjectsV2Output.IsTruncated resp) false |})
  end.

(** *** Presigned URLs *)

(** [presignURLGet] generates a presigned URL for GET operations. *)
Definition presignURLGet (bucket key : string) (expiry : Duration)
  : Prog (string * option error) :=
  r <- call (s3.PresignGetObject
               {| s3.GetObjectInput.Bucket := Some bucket;
                  s3.GetObjectInput.Key := Some key |} expiry) ;;
  match r with
  | inr err => Return ("", Some (errors.Errorf_w "presign get: %w" [] (sdkError err)))
  | inl presignResult => Return (s3.PresignedHTTPRequest.URL presignResult, None)
  end.

(** [presignURLPut] generates a presigned URL for PUT operations. *)
Definition presignURLPut (bucket key : string) (expiry : Duration)
  (opts : ClientOptions.t) : Prog (string * option error) :=
  let input :=
    {| s3.PutObjectInput.Bucket := Some bucket;
       s3.PutObjectInput.Key := Some key;
       s3.PutObjectInput.Body := None;
       s3.PutObjectInput.ContentType :=
         match ClientOptions.ContentType opts with
         | Some v => Some v
         | None => None
         end;
       s3.PutObjectInput.ContentDisposition :=
         match ClientOptions.ContentDisposition opts with
         | Some v => Some v
         | None => None
         end;
       s3.PutObjectInput.ContentLength := None |} in
  r <- call (s3.PresignPutObject input expiry) ;;
  match r with
  | inr err => Return ("", Some (errors.Errorf_w "presign put: %w" [] (sdkError err)))
  | inl presignResult => Return (s3.PresignedHTTPRequest.URL presignResult, None)
  end.

(** [presignURLDelete] generates a presigned URL for DELETE operations. *)
Definition presignURLDelete (bucket key : string) (expiry : Duration)
  : Prog (string * option error) :=
  r <- call (s3.PresignDeleteObject
               {| s3.DeleteObjectInput.Bucket := Some bucket;
                  s3.DeleteObjectInput.Key := Some key |} expiry) ;;
  match r with
  | inr err =>
      Return ("", Some (errors.Errorf_w "presign delete: %w" [] (sdkError err)))
  | inl presignResult => Return (s3.PresignedHTTPRequest.URL presignResult, None)
  end.

(** The three errors of [PresignURL]'s validation. *)
Definition unsupported_method (method : string) : error :=
  errors.Errorf
    "simplestorage: unsupported HTTP method %q for presigned URL (supported: GET, PUT, DELETE)"
    [ArgString method].

Definition key_cannot_be_empty : error :=
  errors.Errorf "simplestorage: key cannot be empty for presigned URL" [].

Definition invalid_expiry (expiry : Duration) : error :=
  errors.Errorf
    "simplestorage: invalid expiry duration %v for presigned URL (must be positive)"
    [ArgDuration expiry].

(** [PresignURL] generates a presigned URL for the specified HTTP method,
    key, and expiry duration. *)
Definition PresignURL (c : Client.t) (method key : string) (expiry : Duration)
  (opts : list ClientOption) : Prog (string * option error) :=
  if negb ((method =? http.MethodGet) || (method =? http.MethodPut)
           || (method =? http.MethodDelete))
  then Return ("", Some (unsupported_method method))
  else if key =? "" then Return ("", Some key_cannot_be_empty)
  else if (expiry <=? 0)%Z then Return ("", Some (invalid_expiry expiry))
  else
    let o := range_apply opts (ClientOptions.defaults (Client.options c)) in
    if method =? http.MethodGet then
      presignURLGet (ClientOptions.BucketName o) key expiry
    else if method =? http.MethodPut then
      presignURLPut (ClientOptions.BucketName o) key expiry o
    else if method =? http.MethodDelete then
      presignURLDelete (ClientOptions.BucketName o) key expiry
    else Return ("", None).

(** *** Bucket management *)

Definition bucket_name_required : error :=
  errors.New "simplestorage: bucket name required for bucket management operations".

(** [CreateBucket] creates a new bucket with the given name. *)
Definition CreateBucket (c : Client.t) (bucket : string) (opts : list BucketOption)
  : Prog (BucketInfo.t + error) :=
  if bucket =? "" then Return (inr bucket_name_required)
  else
    let o := range_apply opts BucketOptions.defaults in
    r <- (if BucketOptions.EnableSnapshot o
          then storage.CreateSnapshotEnabledBucket (Client.cli c)
                 {| s3.CreateBucketInput.Bucket := Some bucket |}
                 (BucketOptions.S3Options o)
          else
            r0 <- call (s3.CreateBucket
                          {| s3.CreateBucketInput.Bucket := Some bucket |}
                          (BucketOptions.S3Options o)) ;;
            Return (storage.through r0)) ;;
    match r with
    | inr err =>
        Return (inr (errors.Errorf_w "simplestorage: can't create bucket %s: %w"
                       [ArgString bucket] err))
    | inl _ =>
        now <- call s3.Now ;;
        Return (inl
          {| BucketInfo.Name := bucket;
             BucketInfo.Created := now;
             BucketInfo.SnapshotsEnabled := false;
             BucketInfo.IsForkParent := false;
             BucketInfo.SourceBucket := "";
             BucketInfo.SourceSnapshot := "" |})
    end.

(** The request [emptyBucket] sends for one listed object. *)
Definition delete_request (bucket : string) (obj : s3.Object.t)
  : s3.DeleteObjectInput.t :=
  {| s3.DeleteObjectInput.Bucket := Some bucket;
     s3.DeleteObjectInput.Key := s3.Object.Key obj |}.

(** The loop of [emptyBucket]: delete each listed object, stop at the first
    failure.  The message of that failure dereferences the key. *)
Fixpoint delete_each (bucket : string) (o : BucketOptions.t)
  (contents : list s3.Object.t) : Prog (option error) :=
  match contents with
  | [] => Return None
  | obj :: rest =>
      r <- call (s3.DeleteObject (delete_request bucket obj)
                   (BucketOptions.S3Options o)) ;;
      match r with
      | inr err =>
          match s3.Object.Key obj with
          | None => Panic
          | Some key =>
              Return (Some (errors.Errorf_w "can't delete object %s: %w"
                              [ArgString key] (sdkError err)))
          end
      | inl _ => delete_each bucket o rest
      end
  end.

(** The request [emptyBucket] lists with. *)
Definition empty_list_request (bucket : string) : s3.ListObjectsV2Input.t :=
  {| s3.ListObjectsV2Input.Bucket := Some bucket;
     s3.ListObjectsV2Input.Delimiter := None;
     s3.ListObjectsV2Input.Prefix := None;
     s3.ListObjectsV2Input.MaxKeys := None;
     s3.ListObjectsV2Input.ContinuationToken := None;
     s3.ListObjectsV2Input.StartAfter := None |}.

(** [emptyBucket] empties a bucket by deleting all objects in it. *)
Definition emptyBucket (c : Client.t) (bucket : string) (o : BucketOptions.t)
  : Prog (option error) :=
  listResp <- call (s3.ListObjectsV2 (empty_list_request bucket)
                      (BucketOptions.S3Options o)) ;;
  match listResp with
  | inr err =>
      Return (Some (errors.Errorf_w "can't list objects: %w" [] (sdkError err)))
  | inl resp => delete_each bucket o (s3.ListObjectsV2Output.Contents resp)
  end.

(** The last step of [DeleteBucket]: the bucket-delete call itself. *)
Definition delete_bucket_call (bucket : string) (o : BucketOptions.t)
  : Prog (option error) :=
  r <- call (s3.DeleteBucket {| s3.DeleteBucketInput.Bucket := Some bucket |}
               (BucketOptions.S3Options o)) ;;
  match r with
  | inr err =>
      Return (Some (errors.Errorf_w "simplestorage: can't delete bucket %s: %w"
                      [ArgString bucket] (sdkError err)))
  | inl _ => Return None
  end.

(** [DeleteBucket] deletes the bucket with the given name. *)
Definition DeleteBucket (c : Client.t) (bucket : string) (opts : list BucketOption)
  : Prog (option error) :=
  if bucket =? "" then Return (Some bucket_name_required)
  else
    let o := range_apply opts BucketOptions.defaults in
    if BucketOptions.ForceDelete o then
      err <- emptyBucket c bucket o ;;
      match err with
      | Some err =>
          Return (Some (errors.Errorf_w "simplestorage: can't empty bucket %s: %w"
                          [ArgString bucket] err))
      | None => delete_bucket_call bucket o
      end
    else delete_bucket_call bucket o.

(** The loop of [ListBuckets]; it dereferences the name of each bucket. *)
Fixpoint bucket_infos (buckets : list s3.Bucket.t) (acc : list BucketInfo.t)
  : Prog (list BucketInfo.t) :=
  match buckets with
  | [] => Return acc
  | b :: rest =>
      match s3.Bucket.Name b with
      | None => Panic
      | Some name =>
          bucket_infos rest
            (acc ++ [{| BucketInfo.Name := name;
                        BucketInfo.Created :=
                          lower (s3.Bucket.CreationDate b) Time_zero;
                        BucketInfo.SnapshotsEnabled := false;
                        BucketInfo.IsForkParent := false;
                        BucketInfo.SourceBucket := "";
                        BucketInfo.SourceSnapshot := "" |}])
      end
  end.

(** [ListBuckets] lists all buckets the user has access to. *)
Definition ListBuckets (c : Client.t) (opts : list BucketOption)
  : Prog (BucketList.t + error) :=
  let o := range_apply opts BucketOptions.defaults in
  r <- call (s3.ListBuckets
               {| s3.ListBucketsInput.ContinuationToken :=
                    BucketOptions.ContinuationToken o |}
               (BucketOptions.S3Options o)) ;;
  match r with
  | inr err =>
      Return (inr (errors.Errorf_w "simplestorage: can't list buckets: %w" []
                     (sdkError err)))
  | inl resp =>
      let truncated :=
        match s3.ListBucketsOutput.ContinuationToken resp with
        | Some _ => true
        | None => false
        end in
      buckets <- bucket_infos (s3.ListBucketsOutput.Buckets resp) [] ;;
      Return (inl
        {| BucketList.Buckets := buckets;
           BucketList.NextToken :=
             match s3.ListBucketsOutput.ContinuationToken resp with
             | Some token => token
             | None => ""
             end;
           BucketList.Truncated := truncated |})
  end.

(** The record [GetBucketInfo] falls back to: the name and nothing else. *)
Definition name_only (bucket : string) : BucketInfo.t :=
  {| BucketInfo.Name := bucket;
     BucketInfo.Created := Time_zero;
     BucketInfo.SnapshotsEnabled := false;
     BucketInfo.IsForkParent := false;
     BucketInfo.SourceBucket := "";
     BucketInfo.SourceSnapshot := "" |}.

(** [GetBucketInfo] retrieves metadata about the bucket with the given
    name. *)
Definition GetBucketInfo (c : Client.t) (bucket : string) (opts : list BucketOption)
  : Prog (BucketInfo.t + error) :=
  if bucket =? "" then Return (inr bucket_name_required)
  else
    let o := range_apply opts BucketOptions.defaults in
    r <- storage.HeadBucketForkOrSnapshot (Client.cli c)
           {| s3.HeadBucketInput.Bucket := Some bucket |}
           (BucketOptions.S3Options o) ;;
    match r with
    | inl tigrisInfo =>
        Return (inl
          {| BucketInfo.Name := bucket;
             BucketInfo.Created := Time_zero;
             BucketInfo.SnapshotsEnabled :=
               storage.HeadBucketForkOrSnapshotOutput.SnapshotsEnabled tigrisInfo;
             BucketInfo.IsForkParent :=
               storage.HeadBucketForkOrSnapshotOutput.IsForkParent tigrisInfo;
             BucketInfo.SourceBucket :=
               storage.HeadBucketForkOrSnapshotOutput.SourceBucket tigrisInfo;
             BucketInfo.SourceSnapshot :=
               storage.HeadBucketForkOrSnapshotOutput.SourceBucketSnapshot tigrisInfo |})
    | inr _ => Return (inl (name_only bucket))
    end.

(** [CreateBucketSnapshot] creates a snapshot with the given description. *)
Definition CreateBucketSnapshot (c : Client.t) (bucket description : string)
  (opts : list BucketOption) : Prog (SnapshotInfo.t + error) :=
  if bucket =? "" then Return (inr bucket_name_required)
  else
    let o := range_apply opts BucketOptions.defaults in
    r <- storage.CreateBucketSnapshot (Client.cli c) description
           {| s3.CreateBucketInput.Bucket := Some bucket |}
           (BucketOptions.S3Options o) ;;
    match r with
    | inr err =>
        Return (inr (errors.Errorf_w
                       "simplestorage: can't create snapshot for bucket %s: %w"
                       [ArgString bucket] err))
    | inl _ =>
        now <- call s3.Now ;;
        Return (inl
          {| SnapshotInfo.Name := description;
             SnapshotInfo.Version := "";
             SnapshotInfo.Created := now;
             SnapshotInfo.Bucket := bucket |})
    end.

(** The entry [ListBucketSnapshots] builds for one returned bucket. *)
Definition snapshot_of (bucket : string) (b : s3.Bucket.t) : SnapshotInfo.t :=
  {| SnapshotInfo.Name := lower (s3.Bucket.Name b) "";
     SnapshotInfo.Version := lower (s3.Bucket.Name b) "";
     SnapshotInfo.Created := lower (s3.Bucket.CreationDate b) Time_zero;
     SnapshotInfo.Bucket := bucket |}.

(** The loop of [ListBucketSnapshots]. *)
Fixpoint snapshots_of (bucket : string) (buckets : list s3.Bucket.t)
  (acc : list SnapshotInfo.t) : list SnapshotInfo.t :=
  match buckets with
  | [] => acc
  | b :: rest => snapshots_of bucket rest (acc ++ [snapshot_of bucket b])
  end.

(** [ListBucketSnapshots] lists all snapshots for the given bucket. *)
Definition ListBucketSnapshots (c : Client.t) (bucket : string)
  (opts : list BucketOption) : Prog (SnapshotList.t + error) :=
  if bucket =? "" then Return (inr bucket_name_required)
  else
    let o := range_apply opts BucketOptions.defaults in
    let s3Options :=
      BucketOptions.S3Options o ++ [tigrisheaders.WithListSnapshots bucket] in
    r <- call (s3.ListBuckets {| s3.ListBucketsInput.ContinuationToken := None |}
                 s3Options) ;;
    match r with
    | inr err =>
        Return (inr (errors.Errorf_w
                       "simplestorage: can't list snapshots for bucket %s: %w"
                       [ArgString bucket] (sdkError err)))
    | inl resp =>
        Return (inl
          {| SnapshotList.Snapshots :=
               snapshots_of bucket (s3.ListBucketsOutput.Buckets resp) [];
             SnapshotList.Bucket := bucket |})
    end.

Definition source_name_required : error :=
  errors.New
    "simplestorage: source bucket name required for bucket management operations".

Definition target_name_required : error :=
  errors.New
    "simplestorage: target bucket name required for bucket management operations".

(** [ForkBucket] creates a fork of the source bucket with the given target
    name. *)
Definition ForkBucket (c : Client.t) (source target : string)
  (opts : list BucketOption) : Prog (BucketInfo.t + error) :=
  if source =? "" then Return (inr source_name_required)
  else if target =? "" then Return (inr target_name_required)
  else
    let o := range_apply opts BucketOptions.defaults in
    let s3Options :=
      BucketOptions.S3Options o ++ [tigrisheaders.WithForkSourceBucket source] in
    r <- call (s3.CreateBucket {| s3.CreateBucketInput.Bucket := Some target |}
                 s3Options) ;;
    match r with
    | inr err =>
        Return (inr (errors.Errorf_w "simplestorage: can't fork bucket %s to %s: %w"
                       [ArgString source; ArgString target] (sdkError err)))
    | inl _ =>
        now <- call s3.Now ;;
        Return (inl
          {| BucketInfo.Name := target;
             BucketInfo.Created := now;
             BucketInfo.SnapshotsEnabled := false;
             BucketInfo.IsForkParent := false;
             BucketInfo.SourceBucket := source;
             BucketInfo.SourceSnapshot := BucketOptions.SnapshotVersion o |})
    end.

End simplestorage.

(** ** Services and environments to run the programs against *)

(** The service whose every call succeeds with an empty reply. *)
Definition ok_reply (o : s3.Op) : s3.Reply o :=
  match o as o0 return s3.Reply o0 with
  | s3.CreateBucket _ _ => inl {| s3.CreateBucketOutput.Location := None |}
  | s3.DeleteBucket _ _ => inl {| s3.DeleteBucketOutput.RequestID := "" |}
  | s3.HeadBucket _ _ => inl {| s3.HeadBucketOutput.RawResponse := Some [] |}
  | s3.ListBuckets _ _ =>
      inl {| s3.ListBucketsOutput.Buckets := [];
             s3.ListBucketsOutput.ContinuationToken := None |}
  | s3.ListObjectsV2 _ _ =>
      inl {| s3.ListObjectsV2Output.Contents := [];
             s3.ListObjectsV2Output.IsTruncated := None;
             s3.ListObjectsV2Output.NextContinuationToken := None |}
  | s3.GetObject _ _ =>
      inl {| s3.GetObjectOutput.ContentType := None;
             s3.GetObjectOutput.ETag := None;
             s3.GetObjectOutput.ContentLength := None;
             s3.GetObjectOutput.VersionId := None;
             s3.GetObjectOutput.LastModified := None;
             s3.GetObjectOutput.Metadata := [];
             s3.GetObjectOutput.Body := None |}
  | s3.HeadObject _ _ =>
      inl {| s3.HeadObjectOutput.ContentType := None;
             s3.HeadObjectOutput.ContentDisposition := None;
             s3.HeadObjectOutput.ETag := None;
             s3.HeadObjectOutput.ContentLength := None;
             s3.HeadObjectOutput.VersionId := None;
             s3.HeadObjectOutput.LastModified := None;
             s3.HeadObjectOutput.Metadata := [] |}
  | s3.PutObject _ _ =>
      inl {| s3.PutObjectOutput.ETag := None; s3.PutObjectOutput.VersionId := None |}
  | s3.DeleteObject _ _ => inl {| s3.DeleteObjectOutput.DeleteMarker := None |}
  | s3.CopyObject _ _ => inl {| s3.CopyObjectOutput.VersionId := None |}
  | s3.PresignGetObject _ _ => inl {| s3.PresignedHTTPRequest.URL := "" |}
  | s3.PresignPutObject _ _ => inl {| s3.PresignedHTTPRequest.URL := "" |}
  | s3.PresignDeleteObject _ _ => inl {| s3.PresignedHTTPRequest.URL := "" |}
  | s3.LoadDefaultConfig =>
      inl {| aws.Region := ""; aws.ConfigCredentials := None |}
  | s3.Now => Time_zero
  end.

Definition quiet : Service := fun _ o => ok_reply o.

(** The environment with no variable set. *)
Definition no_env : Env := fun _ => "".

(** A client over the default endpoint, bound to [bucket]. *)
Definition client_for (bucket : string) : simplestorage.Client.t :=
  {| simplestorage.Client.cli :=
       {| storage.Client.Client :=
            s3.NewFromConfig {| aws.Region := ""; aws.ConfigCredentials := None |}
              [storage.configure (storage.Options.defaults no_env) None] |};
     simplestorage.Client.options :=
       simplestorage.WithBucket bucket (simplestorage.Options.defaults no_env) |}.

(** The options of a client with a region and a key pair, and the client
    [storage.New] builds from them out of an empty SDK configuration. *)
Definition keyed_options : list storage.Option :=
  [storage.WithRegion "iad"; storage.WithAccessKeypair "key" "secret";
   storage.WithRegion "fra"].

Definition keyed_client : storage.Client.t :=
  {| storage.Client.Client :=
       s3.NewFromConfig {| aws.Region := ""; aws.ConfigCredentials := None |}
         [storage.configure
            (range_apply keyed_options (storage.Options.defaults no_env))
            (Some (aws.StaticCredentials "key" "secret" ""))] |}.

(** A record with neither content type nor size, and one with both. *)
Definition bare_object : simplestorage.Object.t :=
  {| simplestorage.Object.Bucket := "";
     simplestorage.Object.Key := "a.txt";
     simplestorage.Object.ContentType := "";
     simplestorage.Object.ContentDisposition := "";
     simplestorage.Object.Etag := "";
     simplestorage.Object.Version := "";
     simplestorage.Object.Size := 0%Z;
     simplestorage.Object.LastModified := Time_zero;
     simplestorage.Object.Metadata := [];
     simplestorage.Object.URL := "";
     simplestorage.Object.Body := Some "hello" |}.

Definition text_object : simplestorage.Object.t :=
  {| simplestorage.Object.Bucket := "";
     simplestorage.Object.Key := "a.txt";
     simplestorage.Object.ContentType := "text/plain";
     simplestorage.Object.ContentDisposition := "";
     simplestorage.Object.Etag := "";
     simplestorage.Object.Version := "";
     simplestorage.Object.Size := 5%Z;
     simplestorage.Object.LastModified := Time_zero;
     simplestorage.Object.Metadata := [];
     simplestorage.Object.URL := "";
     simplestorage.Object.Body := Some "hello" |}.

(** The entry [ListBuckets] builds for a bucket that has a name. *)
Definition bucket_info_of (b : s3.Bucket.t) : simplestorage.BucketInfo.t :=
  {| simplestorage.BucketInfo.Name := simplestorage.lower (s3.Bucket.Name b) "";
     simplestorage.BucketInfo.Created :=
       simplestorage.lower (s3.Bucket.CreationDate b) Time_zero;
     simplestorage.BucketInfo.SnapshotsEnabled := false;
     simplestorage.BucketInfo.IsForkParent := false;
     simplestorage.BucketInfo.SourceBucket := "";
     simplestorage.BucketInfo.SourceSnapshot := "" |}.

(** A page of two buckets with more to come. *)
Definition two_buckets_page : s3.ListBucketsOutput.t :=
  {| s3.ListBucketsOutput.Buckets :=
       [{| s3.Bucket.Name := Some "alpha"; s3.Bucket.CreationDate := Some 1%Z |};
        {| s3.Bucket.Name := Some "beta"; s3.Bucket.CreationDate := None |}];
     s3.ListBucketsOutput.ContinuationToken := Some "page-2" |}.

(** A service whose object listing is empty and flagged as truncated, with
    no continuation token. *)
Definition truncated_without_token : Service :=
  fun _ o =>
    match o as o0 return s3.Reply o0 with
    | s3.ListObjectsV2 _ _ =>
        inl {| s3.ListObjectsV2Output.Contents := [];
               s3.ListObjectsV2Output.IsTruncated := Some true;
               s3.ListObjectsV2Output.NextContinuationToken := None |}
    | o0 => ok_reply o0
    end.

(** A service whose bucket listing is empty and carries the empty string as
    its continuation token. *)
Definition empty_token : Service :=
  fun _ o =>
    match o as o0 return s3.Reply o0 with
    | s3.ListBuckets _ _ =>
        inl {| s3.ListBucketsOutput.Buckets := [];
               s3.ListBucketsOutput.ContinuationToken := Some "" |}
    | o0 => ok_reply o0
    end.

(** A service that denies the metadata fetch. *)
Definition access_denied : Service :=
  fun _ o =>
    match o as o0 return s3.Reply o0 with
    | s3.HeadBucket _ _ => inr (APIError "AccessDenied" "Access Denied")
    | o0 => ok_reply o0
    end.

(** A service whose buckets are snapshot-enabled forks of [origin]. *)
Definition forked_bucket : Service :=
  fun _ o =>
    match o as o0 return s3.Reply o0 with
    | s3.HeadBucket _ _ =>
        inl {| s3.HeadBucketOutput.RawResponse :=
                 Some [("X-Tigris-Enable-Snapshot", ["true"]);
                       ("X-Tigris-Fork-Source-Bucket", ["origin"]);
                       ("X-Tigris-Fork-Source-Bucket-Snapshot", ["1700000000"])] |}
    | o0 => ok_reply o0
    end.

(** The event of a delete call for a listed object that succeeded. *)
Definition deleted (bucket : string) (optFns : list s3.OptFn)
  (obj : s3.Object.t) (ev : Event) : Prop :=
  exists out,
    ev = Ev (s3.DeleteObject (simplestorage.delete_request bucket obj) optFns)
           (inl out).

(** The event of a delete call for a listed object that failed with [err]. *)
Definition delete_failed (bucket : string) (optFns : list s3.OptFn)
  (obj : s3.Object.t) (err : SdkError) : Event :=
  Ev (s3.DeleteObject (simplestorage.delete_request bucket obj) optFns) (inr err).

(** An object of a bucket, as a listing gives it. *)
Definition listed (key : string) : s3.Object.t :=
  {| s3.Object.Key := Some key; s3.Object.ETag := None;
     s3.Object.Size := None; s3.Object.LastModified := None |}.

Definition two_objects_page : s3.ListObjectsV2Output.t :=
  {| s3.ListObjectsV2Output.Contents := [listed "a.txt"; listed "b.txt"];
     s3.ListObjectsV2Output.IsTruncated := Some false;
     s3.ListObjectsV2Output.NextContinuationToken := None |}.

(** A service whose buckets hold two objects, and where every call
    succeeds. *)
Definition two_objects : Service :=
  fun _ o =>
    match o as o0 return s3.Reply o0 with
    | s3.ListObjectsV2 _ _ => inl two_objects_page
    | o0 => ok_reply o0
    end.

(** The same, except that deleting [b.txt] is refused. *)
Definition b_is_locked : Service :=
  fun _ o =>
    match o as o0 return s3.Reply o0 with
    | s3.ListObjectsV2 _ _ => inl two_objects_page
    | s3.DeleteObject params _ =>
        match s3.DeleteObjectInput.Key params with
        | Some "b.txt" => inr (APIError "AccessDenied" "object is locked")
        | _ => inl {| s3.DeleteObjectOutput.DeleteMarker := None |}
        end
    | o0 => ok_reply o0
    end.

(** *** Every operation of the library, by its error *)

(** The error of a returned pair. *)
Definition failure {A : Type} (r : A + error) : option error :=
  match r with
  | inl _ => None
  | inr err => Some err
  end.

(** A call of an exported function or method, with its arguments. *)
Inductive Invocation : Type :=
| storage_New (env : Env) (options : list storage.Option)
| storage_CreateBucketFork (c : storage.Client.t) (source target : string)
    (opts : list s3.OptFn)
| storage_CreateBucketSnapshot (c : storage.Client.t) (description : string)
    (in_ : s3.CreateBucketInput.t) (opts : list s3.OptFn)
| storage_CreateSnapshotEnabledBucket (c : storage.Client.t)
    (in_ : s3.CreateBucketInput.t) (opts : list s3.OptFn)
| storage_HeadBucketForkOrSnapshot (c : storage.Client.t)
    (in_ : s3.HeadBucketInput.t) (opts : list s3.OptFn)
| storage_ListBucketSnapshots (c : storage.Client.t) (bucketName : string)
    (opts : list s3.OptFn)
| storage_RenameObject (c : storage.Client.t) (in_ : s3.CopyObjectInput.t)
    (opts : list s3.OptFn)
| simple_New (env : Env) (options : list simplestorage.Option)
| simple_Get (c : simplestorage.Client.t) (key : string)
    (opts : list simplestorage.ClientOption)
| simple_Head (c : simplestorage.Client.t) (key : string)
    (opts : list simplestorage.ClientOption)
| simple_Put (c : simplestorage.Client.t) (obj : simplestorage.Object.t)
    (opts : list simplestorage.ClientOption)
| simple_Delete (c : simplestorage.Client.t) (key : string)
    (opts : list simplestorage.ClientOption)
| simple_List (c : simplestorage.Client.t)
    (opts : list simplestorage.ClientOption)
| simple_PresignURL (c : simplestorage.Client.t) (method key : string)
    (expiry : Duration) (opts : list simplestorage.ClientOption)
| simple_CreateBucket (c : simplestorage.Client.t) (bucket : string)
    (opts : list simplestorage.BucketOption)
| simple_DeleteBucket (c : simplestorage.Client.t) (bucket : string)
    (opts : list simplestorage.BucketOption)
| simple_ListBuckets (c : simplestorage.Client.t)
    (opts : list simplestorage.BucketOption)
| simple_GetBucketInfo (c : simplestorage.Client.t) (bucket : string)
    (opts : list simplestorage.BucketOption)
| simple_CreateBucketSnapshot (c : simplestorage.Client.t)
    (bucket description : string) (opts : list simplestorage.BucketOption)
| simple_ListBucketSnapshots (c : simplestorage.Client.t) (bucket : string)
    (opts : list simplestorage.BucketOption)
| simple_ForkBucket (c : simplestorage.Client.t) (source target : string)
    (opts : list simplestorage.BucketOption).

(** The invocation as a program, keeping the error it returns. *)
Definition invoke (i : Invocation) : Prog (option error) :=
  match i with
  | storage_New env options =>
      r <- storage.New env options ;; Return (failure r)
  | storage_CreateBucketFork c source target opts =>
      r <- storage.CreateBucketFork c source target opts ;; Return (failure r)
  | storage_CreateBucketSnapshot c description in_ opts =>
      r <- storage.CreateBucketSnapshot c description in_ opts ;;
      Return (failure r)
  | storage_CreateSnapshotEnabledBucket c in_ opts =>
      r <- storage.CreateSnapshotEnabledBucket c in_ opts ;; Return (failure r)
  | storage_HeadBucketForkOrSnapshot c in_ opts =>
      r <- storage.HeadBucketForkOrSnapshot c in_ opts ;; Return (failure r)
  | storage_ListBucketSnapshots c bucketName opts =>
      r <- storage.ListBucketSnapshots c bucketName opts ;; Return (failure r)
  | storage_RenameObject c in_ opts =>
      r <- storage.RenameObject c in_ opts ;; Return (failure r)
  | simple_New env options =>
      r <- simplestorage.New env options ;; Return (failure r)
  | simple_Get c key opts =>
      r <- simplestorage.Get c key opts ;; Return (failure r)
  | simple_Head c key opts =>
      r <- simplestorage.Head c key opts ;; Return (failure r)
  | simple_Put c obj opts =>
      r <- simplestorage.Put c obj opts ;; Return (failure r)
  | simple_Delete c key opts => simplestorage.Delete c key opts
  | simple_List c opts =>
      r <- simplestorage.List c opts ;; Return (failure r)
  | simple_PresignURL c method key expiry opts =>
      r <- simplestorage.PresignURL c method key expiry opts ;; Return (snd r)
  | simple_CreateBucket c bucket opts =>
      r <- simplestorage.CreateBucket c bucket opts ;; Return (failure r)
  | simple_DeleteBucket c bucket opts => simplestorage.DeleteBucket c bucket opts
  | simple_ListBuckets c opts =>
      r <- simplestorage.ListBuckets c opts ;; Return (failure r)
  | simple_GetBucketInfo c bucket opts =>
      r <- simplestorage.GetBucketInfo c bucket opts ;; Return (failure r)
  | simple_CreateBucketSnapshot c bucket description opts =>
      r <- simplestorage.CreateBucketSnapshot c bucket description opts ;;
      Return (failure r)
  | simple_ListBucketSnapshots c bucket opts =>
      r <- simplestorage.ListBucketSnapshots c bucket opts ;; Return (failure r)
  | simple_ForkBucket c source target opts =>
      r <- simplestorage.ForkBucket c source target opts ;; Return (failure r)
  end.

(** An error, if any, that matches none of the three bucket sentinels. *)
Definition unrelated (e : option error) : Prop :=
  match e with
  | None => True
  | Some err =>
      errors.Is err simplestorage.ErrBucketNotFound = false
      /\ errors.Is err simplestorage.ErrBucketNotEmpty = false
      /\ errors.Is err simplestorage.ErrSnapshotRequired = false
  end.

(** A service that refuses to delete a bucket that still holds objects. *)
Definition bucket_not_empty : Service :=
  fun _ o =>
    match o as o0 return s3.Reply o0 with
    | s3.DeleteBucket _ _ =>
        inr (APIError "BucketNotEmpty"
               "The bucket you tried to delete is not empty")
    | o0 => ok_reply o0
    end.

(** *** Reading errors and replies *)

(** [errors.As] with a target of the SDK's error type: the first SDK error
    met along the chain of [Unwrap], the trees of [errors.Join] included.  An
    error built by [fmt.Errorf] without [%w] has no chain. *)
Fixpoint errors_As (err : error) : option SdkError :=
  match err with
  | sdkError e => Some e
  | wrapError _ _ inner => errors_As inner
  | joinError errs =>
      (fix first (l : list error) : option SdkError :=
         match l with
         | [] => None
         | e :: l' =>
             match errors_As e with
             | Some found => Some found
             | None => first l'
             end
         end) errs
  | errorString _ _ | fmtError _ _ => None
  end.

(** The four sentinels of [simplestorage]. *)
Definition sentinels : list error :=
  [simplestorage.ErrNoBucketName; simplestorage.ErrBucketNotFound;
   simplestorage.ErrBucketNotEmpty; simplestorage.ErrSnapshotRequired].

(** The header option functions of [tigrisheaders] add to a request. *)
Definition header_option (key value : string) (f : s3.OptFn) : Prop :=
  forall options,
    f options =
    {| s3.BaseEndpoint := s3.BaseEndpoint options;
       s3.Region := s3.Region options;
       s3.UsePathStyle := s3.UsePathStyle options;
       s3.Credentials := s3.Credentials options;
       s3.APIOptions := s3.APIOptions options ++ [s3.AddHeaderValue key value] |}.

(** The metadata read from a response without any of the four headers. *)
Definition no_metadata : storage.HeadBucketForkOrSnapshotOutput.t :=
  {| storage.HeadBucketForkOrSnapshotOutput.SnapshotsEnabled := false;
     storage.HeadBucketForkOrSnapshotOutput.SourceBucket := "";
     storage.HeadBucketForkOrSnapshotOutput.SourceBucketSnapshot := "";
     storage.HeadBucketForkOrSnapshotOutput.IsForkParent := false |}.

(** A service on a host where the SDK configuration cannot be loaded. *)
Definition config_unavailable : Service :=
  fun _ o =>
    match o as o0 return s3.Reply o0 with
    | s3.LoadDefaultConfig => inr (APIError "ConfigError" "no configuration")
    | o0 => ok_reply o0
    end.

(** A service whose SDK configuration carries a region and credentials of
    its own. *)
Definition host_config : aws.Config :=
  {| aws.Region := "us-east-1";
     aws.ConfigCredentials := Some (aws.StaticCredentials "host" "hostsecret" "") |}.

Definition configured_host : Service :=
  fun _ o =>
    match o as o0 return s3.Reply o0 with
    | s3.LoadDefaultConfig => inl host_config
    | o0 => ok_reply o0
    end.

(** An environment that holds a key pair. *)
Definition keyed_env : Env :=
  fun name =>
    if name =? "TIGRIS_STORAGE_ACCESS_KEY_ID" then "envkey"
    else if name =? "TIGRIS_STORAGE_SECRET_ACCESS_KEY" then "envsecret"
    else "".

(** A listing of one object without a key, on a service that refuses every
    delete. *)
Definition keyless_page : s3.ListObjectsV2Output.t :=
  {| s3.ListObjectsV2Output.Contents :=
       [{| s3.Object.Key := None; s3.Object.ETag := None;
           s3.Object.Size := None; s3.Object.LastModified := None |}];
     s3.ListObjectsV2Output.IsTruncated := None;
     s3.ListObjectsV2Output.NextContinuationToken := None |}.

Definition keyless_and_locked : Service :=
  fun _ o =>
    match o as o0 return s3.Reply o0 with
    | s3.ListObjectsV2 _ _ => inl keyless_page
    | s3.DeleteObject _ _ => inr (APIError "AccessDenied" "object is locked")
    | o0 => ok_reply o0
    end.

(** A page of buckets, the second without a name. *)
Definition unnamed_bucket_page : s3.ListBucketsOutput.t :=
  {| s3.ListBucketsOutput.Buckets :=
       [{| s3.Bucket.Name := Some "alpha"; s3.Bucket.CreationDate := None |};
        {| s3.Bucket.Name := None; s3.Bucket.CreationDate := Some 7%Z |}];
     s3.ListBucketsOutput.ContinuationToken := None |}.

(** The event of a delete call for a listed object, with its reply. *)
Definition delete_event (bucket : string) (optFns : list s3.OptFn)
  (obj : s3.Object.t) (reply : s3.DeleteObjectOutput.t + SdkError) : Event :=
  Ev (s3.DeleteObject (simplestorage.delete_request bucket obj) optFns) reply.

(** [l] holds no event of a bucket-delete call. *)
Definition no_bucket_delete (l : list Event) : Prop :=
  Forall (fun ev => match ev with
                    | Ev (s3.DeleteBucket _ _) _ => False
                    | _ => True
                    end) l.

(** A service whose presign client signs every request with one URL. *)
Definition signer : Service :=
  fun _ o =>
    match o as o0 return s3.Reply o0 with
    | s3.PresignGetObject _ _ =>
        inl {| s3.PresignedHTTPRequest.URL := "https://signed.example/get" |}
    | s3.PresignPutObject _ _ =>
        inl {| s3.PresignedHTTPRequest.URL := "https://signed.example/put" |}
    | s3.PresignDeleteObject _ _ =>
        inl {| s3.PresignedHTTPRequest.URL := "https://signed.example/delete" |}
    | o0 => ok_reply o0
    end.

(** ** Facts about the resolver loop and about running programs *)

Lemma range_apply_fold {O : Type} (options : list (O -> O)) (o : O) :
  range_apply options o = fold_left (fun acc doer => doer acc) options o.
Proof.
  revert o; induction options as [|doer rest IH]; intro o; simpl; auto.
Qed.

Lemma range_apply_app {O : Type} (pre post : list (O -> O)) (o : O) :
  range_apply (pre ++ post) o = range_apply post (range_apply pre o).
Proof.
  revert o; induction pre as [|doer rest IH]; intro o; simpl; auto.
Qed.

Section LastWriter.

Variables (O V : Type) (get : O -> V).

Lemma range_apply_keeps (post : list (O -> O)) (o : O) :
  Forall (keeps get) post -> get (range_apply post o) = get o.
Proof.
  intro Hpost; revert o.
  induction Hpost as [|g post Hg _ IH]; intro o; simpl.
  - reflexivity.
  - rewrite IH. apply Hg.
Qed.

Lemma last_writer (pre post : list (O -> O)) (f : O -> O) (v : V) (o : O) :
  sets get f v -> Forall (keeps get) post -> get (range_apply (pre ++ f :: post) o) = v.
Proof.
  intros Hf Hpost.
  rewrite range_apply_app. simpl.
  rewrite range_apply_keeps by assumption.
  apply Hf.
Qed.

End LastWriter.

Lemma run_bind {A B : Type} (svc : Service) (p : Prog A) (f : A -> Prog B) :
  forall h,
    run svc h (bind p f) =
    match run svc h p with
    | (Returned a, h') => run svc h' (f a)
    | (Panicked, h') => (Panicked, h')
    end.
Proof.
  induction p as [a| |o k IH]; intro h; simpl; auto.
Qed.

Lemma always_run {A : Type} (Q : A -> Prop) (svc : Service) (p : Prog A) :
  always Q p ->
  forall h a, fst (run svc h p) = Returned a -> Q a.
Proof.
  induction p as [a0| |o k IH]; simpl; intros HQ h a Hrun.
  - inversion Hrun; subst; assumption.
  - discriminate.
  - eapply IH; eauto.
Qed.

Lemma always_bind {A B : Type} (P : A -> Prop) (Q : B -> Prop)
  (p : Prog A) (f : A -> Prog B) :
  always P p -> (forall a, P a -> always Q (f a)) -> always Q (bind p f).
Proof.
  induction p as [a| |o k IH]; simpl; intros Hp Hf; auto.
Qed.

(** ** Client construction *)

(** C1. The options value both constructors resolve is the defaults with
    each option function applied in argument order: a client that
    [storage.New] returns is configured with the endpoint, region, path
    style and key pair of that value, a client that [simplestorage.New]
    returns holds that value, and in the loop both run the last function
    that sets a field decides it, whatever was set before. *)
Theorem options_resolved_in_argument_order (env : Env) :
  (forall (options : list storage.Option) svc h c,
      fst (run svc h (storage.New env options)) = Returned (inl c) ->
      let o := fold_left (fun acc doer => doer acc) options
                 (storage.Options.defaults env) in
      let cfg := s3.options (storage.Client.Client c) in
      s3.BaseEndpoint cfg = Some (storage.Options.BaseEndpoint o)
      /\ s3.Region cfg = storage.Options.Region o
      /\ s3.UsePathStyle cfg = storage.Options.UsePathStyle o
      /\ (storage.Options.AccessKeyID o <> ""
          -> storage.Options.SecretAccessKey o <> ""
          -> s3.Credentials cfg =
             Some (aws.StaticCredentials (storage.Options.AccessKeyID o)
                     (storage.Options.SecretAccessKey o) "")))
  /\ (forall (options : list simplestorage.Option) svc h c,
      fst (run svc h (simplestorage.New env options)) = Returned (inl c) ->
      simplestorage.Client.options c =
      fold_left (fun acc doer => doer acc) options
        (simplestorage.Options.defaults env))
  /\ (forall (O V : Type) (get : O -> V) (pre post : list (O -> O))
        (f : O -> O) (v : V) (o : O),
      sets get f v -> Forall (keeps get) post ->
      get (range_apply (pre ++ f :: post) o) = v).
Proof.
  split; [|split].
  - intros options svc h c Hrun. cbv zeta.
    rewrite <- range_apply_fold.
    unfold storage.New in Hrun. simpl in Hrun.
    destruct (svc h s3.LoadDefaultConfig) as [cfg0|err]; simpl in Hrun;
      [|discriminate].
    injection Hrun as <-. simpl.
    repeat split.
    intros Hk Hs.
    apply String.eqb_neq in Hk, Hs. rewrite Hk, Hs. reflexivity.
  - intros options svc h c Hrun.
    rewrite <- range_apply_fold.
    unfold simplestorage.New in Hrun.
    destruct (negb _) in Hrun; [simpl in Hrun; discriminate|].
    rewrite run_bind in Hrun.
    destruct (run svc h (storage.New env _)) as [[[cli|err]|] h'];
      simpl in Hrun; try discriminate.
    injection Hrun as <-. reflexivity.
  - intros. apply last_writer; assumption.
Qed.

Lemma options_resolved_in_argument_order_witness :
  (s3.Region (s3.options (storage.Client.Client keyed_client)) = "fra"
   /\ s3.Credentials (s3.options (storage.Client.Client keyed_client))
      = Some (aws.StaticCredentials "key" "secret" ""))
  /\ simplestorage.Options.BucketName
       (simplestorage.Client.options (client_for "photos")) = "photos"
  /\ simplestorage.Options.Region
       (range_apply [simplestorage.WithRegion "fra"; simplestorage.WithBucket "a";
                     simplestorage.WithRegion "iad"; simplestorage.WithBucket "b"]
          (simplestorage.Options.defaults no_env)) = "iad".
Proof.
  destruct (options_resolved_in_argument_order no_env)
    as (Hstorage & Hsimple & Hlast).
  split; [|split].
  - destruct (Hstorage keyed_options quiet [] keyed_client)
      as (_ & Hregion & _ & Hcreds); [reflexivity|].
    split; [exact Hregion|apply Hcreds; discriminate].
  - rewrite (Hsimple [simplestorage.WithBucket "photos"] quiet [] (client_for "photos"));
      reflexivity.
  - apply (Hlast _ _ simplestorage.Options.Region
             [simplestorage.WithRegion "fra"; simplestorage.WithBucket "a"]
             [simplestorage.WithBucket "b"] (simplestorage.WithRegion "iad")).
    + intro o; reflexivity.
    + repeat constructor.
Defined.

(** C5. When the options leave the bucket name empty, [simplestorage.New]
    returns at once, before any call: no client, and an error that
    [errors.Is] matches with [ErrNoBucketName]. *)
Theorem New_without_bucket_name (env : Env) (options : list simplestorage.Option) :
  simplestorage.Options.BucketName
    (range_apply options (simplestorage.Options.defaults env)) = "" ->
  exists err,
    simplestorage.New env options = Return (inr err)
    /\ errors.Is err simplestorage.ErrNoBucketName = true
    /\ forall svc h, run svc h (simplestorage.New env options) = (Returned (inr err), h).
Proof.
  intro Hempty.
  unfold simplestorage.New. rewrite Hempty. simpl.
  eexists. split; [reflexivity|]. split; reflexivity.
Qed.

Lemma New_without_bucket_name_witness :
  exists err,
    simplestorage.New no_env [simplestorage.WithRegion "fra"] = Return (inr err)
    /\ errors.Is err simplestorage.ErrNoBucketName = true
    /\ forall svc h,
         run svc h (simplestorage.New no_env [simplestorage.WithRegion "fra"])
         = (Returned (inr err), h).
Proof.
  apply (New_without_bucket_name no_env [simplestorage.WithRegion "fra"]).
  reflexivity.
Defined.

(** ** Presigned URLs *)

(** C2. [PresignURL] checks the method, then the key, then the expiry, and
    returns at the first check that fails, with the empty string and that
    check's error alone: a method other than GET, PUT or DELETE, whatever
    the key and the expiry; an empty key, whatever the expiry; an expiry of
    zero or less.  The rejected call returns without any call to the SDK and
    without looking at the client or at the options.  An input that passes
    the three checks goes on to the presign client. *)
Theorem PresignURL_validation (c : simplestorage.Client.t) (method key : string)
  (expiry : Duration) (opts : list simplestorage.ClientOption) :
  let supported := method = "GET" \/ method = "PUT" \/ method = "DELETE" in
  (~ supported ->
     simplestorage.PresignURL c method key expiry opts
     = Return ("", Some (simplestorage.unsupported_method method)))
  /\ (supported -> key = "" ->
     simplestorage.PresignURL c method key expiry opts
     = Return ("", Some simplestorage.key_cannot_be_empty))
  /\ (supported -> key <> "" -> (expiry <= 0)%Z ->
     simplestorage.PresignURL c method key expiry opts
     = Return ("", Some (simplestorage.invalid_expiry expiry)))
  /\ (supported -> key <> "" -> (0 < expiry)%Z ->
     exists o k, simplestorage.PresignURL c method key expiry opts = Call o k).
Proof.
  cbv zeta. unfold simplestorage.PresignURL, http.MethodGet, http.MethodPut,
    http.MethodDelete.
  destruct (String.eqb_spec method "GET") as [Hg|Hg];
  destruct (String.eqb_spec method "PUT") as [Hp|Hp];
  destruct (String.eqb_spec method "DELETE") as [Hd|Hd];
  destruct (String.eqb_spec key "") as [Hk|Hk];
  destruct (Z.leb_spec expiry 0) as [He|He];
  cbn [negb orb];
  (repeat split; intros;
   try reflexivity; try tauto; try lia; try congruence;
   try (do 2 eexists; reflexivity)).
Qed.

Lemma PresignURL_validation_witness :
  simplestorage.PresignURL (client_for "photos") "get" "" 0%Z []
  = Return ("", Some (simplestorage.unsupported_method "get"))
  /\ simplestorage.PresignURL (client_for "photos") "PUT" "" 0%Z []
     = Return ("", Some simplestorage.key_cannot_be_empty)
  /\ simplestorage.PresignURL (client_for "photos") "DELETE" "a.txt" (-5)%Z []
     = Return ("", Some (simplestorage.invalid_expiry (-5)%Z)).
Proof.
  split; [|split].
  - apply (PresignURL_validation (client_for "photos") "get" "" 0%Z []).
    intros [H|[H|H]]; discriminate H.
  - apply (PresignURL_validation (client_for "photos") "PUT" "" 0%Z []).
    + right; left; reflexivity.
    + reflexivity.
  - apply (PresignURL_validation (client_for "photos") "DELETE" "a.txt" (-5)%Z []).
    + right; right; reflexivity.
    + discriminate.
    + lia.
Defined.

(** ** Object operations *)

(** C6. The request [Put] sends carries no content type when the record's
    content type is the empty string and no content length when its size is
    zero; otherwise it carries exactly the record's values. *)
Theorem Put_elides_zero_values (c : simplestorage.Client.t)
  (obj : simplestorage.Object.t) (opts : list simplestorage.ClientOption) :
  exists params optFns k,
    simplestorage.Put c obj opts = Call (s3.PutObject params optFns) k
    /\ (simplestorage.Object.ContentType obj = "" ->
        s3.PutObjectInput.ContentType params = None)
    /\ (simplestorage.Object.ContentType obj <> "" ->
        s3.PutObjectInput.ContentType params
        = Some (simplestorage.Object.ContentType obj))
    /\ (simplestorage.Object.Size obj = 0%Z ->
        s3.PutObjectInput.ContentLength params = None)
    /\ (simplestorage.Object.Size obj <> 0%Z ->
        s3.PutObjectInput.ContentLength params
        = Some (simplestorage.Object.Size obj)).
Proof.
  unfold simplestorage.Put, call. cbn [bind].
  do 3 eexists. split; [reflexivity|].
  unfold simplestorage.put_request, simplestorage.raise. cbn.
  repeat split; intro H.
  - rewrite H. reflexivity.
  - apply String.eqb_neq in H. rewrite H. reflexivity.
  - rewrite H. reflexivity.
  - apply Z.eqb_neq in H. rewrite H. reflexivity.
Qed.

Lemma Put_elides_zero_values_witness :
  (exists params optFns k,
      simplestorage.Put (client_for "photos") bare_object []
      = Call (s3.PutObject params optFns) k
      /\ s3.PutObjectInput.ContentType params = None
      /\ s3.PutObjectInput.ContentLength params = None)
  /\ (exists params optFns k,
      simplestorage.Put (client_for "photos") text_object []
      = Call (s3.PutObject params optFns) k
      /\ s3.PutObjectInput.ContentType params = Some "text/plain"
      /\ s3.PutObjectInput.ContentLength params = Some 5%Z).
Proof.
  split.
  - destruct (Put_elides_zero_values (client_for "photos") bare_object [])
      as (params & optFns & k & Heq & Ht & _ & Hs & _).
    exists params, optFns, k.
    split; [exact Heq|]. split; [apply Ht|apply Hs]; reflexivity.
  - destruct (Put_elides_zero_values (client_for "photos") text_object [])
      as (params & optFns & k & Heq & _ & Ht & _ & Hs).
    exists params, optFns, k.
    split; [exact Heq|].
    split; [apply Ht|apply Hs]; discriminate.
Defined.

(** ** Listings *)

Lemma list_items_map (bucket : string) (contents : list s3.Object.t)
  (items : list simplestorage.Object.t) :
  simplestorage.list_items bucket contents items
  = items ++ map (simplestorage.list_item bucket) contents.
Proof.
  revert items; induction contents as [|obj rest IH]; intro items; simpl.
  - now rewrite app_nil_r.
  - rewrite IH, <- app_assoc. reflexivity.
Qed.


Lemma bucket_infos_named (buckets : list s3.Bucket.t)
  (acc : list simplestorage.BucketInfo.t) :
  Forall (fun b => s3.Bucket.Name b <> None) buckets ->
  simplestorage.bucket_infos buckets acc
  = Return (acc ++ map bucket_info_of buckets).
Proof.
  intro Hnamed; revert acc.
  induction Hnamed as [|b rest Hb _ IH]; intro acc; simpl.
  - now rewrite app_nil_r.
  - unfold bucket_info_of at 1.
    destruct (s3.Bucket.Name b) as [name|]; [|congruence].
    rewrite IH, <- app_assoc. reflexivity.
Qed.

(** C3, as the code has it.  [List] copies its two pagination fields from
    the reply, each on its own: [HasMore] is the reply's [IsTruncated] and
    [NextToken] its [NextContinuationToken], false and empty when absent.
    [ListBuckets] returns [Truncated] exactly when the reply carries a
    continuation token, and that token as [NextToken], so a non-empty
    [NextToken] comes with [Truncated].  Both return one entry per listed
    entry, in order, hence the empty sequence for an empty page. *)
Theorem listing_flags_follow_the_reply (c : simplestorage.Client.t) :
  (forall opts, exists params optFns k,
      simplestorage.List c opts = Call (s3.ListObjectsV2 params optFns) k
      /\ forall resp, exists bucket,
          k (inl resp) =
          Return (inl
            {| simplestorage.ListResult.Items :=
                 map (simplestorage.list_item bucket)
                   (s3.ListObjectsV2Output.Contents resp);
               simplestorage.ListResult.NextToken :=
                 simplestorage.lower
                   (s3.ListObjectsV2Output.NextContinuationToken resp) "";
               simplestorage.ListResult.HasMore :=
                 simplestorage.lower (s3.ListObjectsV2Output.IsTruncated resp)
                   false |}))
  /\ (forall opts, exists params optFns k,
      simplestorage.ListBuckets c opts = Call (s3.ListBuckets params optFns) k
      /\ forall resp,
          Forall (fun b => s3.Bucket.Name b <> None)
            (s3.ListBucketsOutput.Buckets resp) ->
          exists result,
            k (inl resp) = Return (inl result)
            /\ simplestorage.BucketList.Buckets result
               = map bucket_info_of (s3.ListBucketsOutput.Buckets resp)
            /\ (simplestorage.BucketList.Truncated result = true
                <-> s3.ListBucketsOutput.ContinuationToken resp <> None)
            /\ simplestorage.BucketList.NextToken result
               = simplestorage.lower
                   (s3.ListBucketsOutput.ContinuationToken resp) ""
            /\ (simplestorage.BucketList.NextToken result <> ""
                -> simplestorage.BucketList.Truncated result = true)).
Proof.
  split; intro opts.
  - unfold simplestorage.List, call. cbn [bind].
    do 3 eexists. split; [reflexivity|].
    intro resp. eexists. rewrite list_items_map. reflexivity.
  - unfold simplestorage.ListBuckets, call. cbn [bind].
    do 3 eexists. split; [reflexivity|].
    intros resp Hnamed. cbn beta iota.
    rewrite bucket_infos_named by assumption. cbn [bind app].
    eexists. split; [reflexivity|]. cbn.
    destruct (s3.ListBucketsOutput.ContinuationToken resp) as [token|]; cbn.
    + repeat split; auto; discriminate.
    + repeat split; auto; try discriminate; intro H; exfalso; auto.
Qed.

Lemma listing_flags_follow_the_reply_witness :
  exists params optFns k result,
    simplestorage.ListBuckets (client_for "photos") []
    = Call (s3.ListBuckets params optFns) k
    /\ k (inl two_buckets_page) = Return (inl result)
    /\ simplestorage.BucketList.Truncated result = true
    /\ simplestorage.BucketList.NextToken result = "page-2"
    /\ length (simplestorage.BucketList.Buckets result) = 2%nat.
Proof.
  destruct (listing_flags_follow_the_reply (client_for "photos")) as [_ Hb].
  destruct (Hb []) as (params & optFns & k & Heq & Hk).
  destruct (Hk two_buckets_page) as (result & Hres & Hbs & Htr & Htok & _).
  - repeat constructor; discriminate.
  - exists params, optFns, k, result.
    split; [exact Heq|]. split; [exact Hres|].
    split; [apply Htr; discriminate|].
    split; [exact Htok|]. rewrite Hbs. reflexivity.
Defined.

(** C3, as the spec words it, fails.  A reply of [ListObjectsV2] that sets
    [IsTruncated] and carries no continuation token, with no contents, gives
    a [ListResult] with [HasMore] true and an empty [NextToken], on an empty
    page; a reply of [ListBuckets] whose token is the empty string gives a
    [BucketList] with [Truncated] true and an empty [NextToken]. *)
Lemma truncation_flag_without_token :
  fst (run truncated_without_token [] (simplestorage.List (client_for "photos") []))
  = Returned (inl
      {| simplestorage.ListResult.Items := [];
         simplestorage.ListResult.NextToken := "";
         simplestorage.ListResult.HasMore := true |})
  /\ fst (run empty_token [] (simplestorage.ListBuckets (client_for "photos") []))
     = Returned (inl
         {| simplestorage.BucketList.Buckets := [];
            simplestorage.BucketList.NextToken := "";
            simplestorage.BucketList.Truncated := true |}).
Proof.
  split; reflexivity.
Qed.

(** ** Bucket information *)

Lemma HeadBucketForkOrSnapshot_returns (svc : Service) (h : list Event)
  (c : storage.Client.t) (in_ : s3.HeadBucketInput.t) (opts : list s3.OptFn) :
  exists res, fst (run svc h (storage.HeadBucketForkOrSnapshot c in_ opts))
              = Returned res.
Proof.
  unfold storage.HeadBucketForkOrSnapshot. simpl.
  destruct (svc h (s3.HeadBucket in_ opts)) as [resp|err]; simpl.
  - destruct (s3.HeadBucketOutput.RawResponse resp); simpl; eauto.
  - eauto.
Qed.

(** C7. For a non-empty bucket name [GetBucketInfo] makes the calls of the
    metadata fetch and no other, and always returns a record and no error.
    When the fetch fails, with whatever error, the record has the bucket
    name as its only populated field; when the fetch succeeds, the record
    has the name and the four fork and snapshot fields of the fetched
    metadata. *)
Theorem GetBucketInfo_never_surfaces_the_fetch_error
  (c : simplestorage.Client.t) (bucket : string)
  (opts : list simplestorage.BucketOption) (svc : Service) (h : list Event) :
  bucket <> "" ->
  let o := range_apply opts simplestorage.BucketOptions.defaults in
  let fetch :=
    run svc h
      (storage.HeadBucketForkOrSnapshot (simplestorage.Client.cli c)
         {| s3.HeadBucketInput.Bucket := Some bucket |}
         (simplestorage.BucketOptions.S3Options o)) in
  let result := run svc h (simplestorage.GetBucketInfo c bucket opts) in
  snd result = snd fetch
  /\ (exists info, fst result = Returned (inl info))
  /\ (forall err, fst fetch = Returned (inr err) ->
      fst result =
      Returned (inl
        {| simplestorage.BucketInfo.Name := bucket;
           simplestorage.BucketInfo.Created := Time_zero;
           simplestorage.BucketInfo.SnapshotsEnabled := false;
           simplestorage.BucketInfo.IsForkParent := false;
           simplestorage.BucketInfo.SourceBucket := "";
           simplestorage.BucketInfo.SourceSnapshot := "" |}))
  /\ (forall meta, fst fetch = Returned (inl meta) ->
      fst result =
      Returned (inl
        {| simplestorage.BucketInfo.Name := bucket;
           simplestorage.BucketInfo.Created := Time_zero;
           simplestorage.BucketInfo.SnapshotsEnabled :=
             storage.HeadBucketForkOrSnapshotOutput.SnapshotsEnabled meta;
           simplestorage.BucketInfo.IsForkParent :=
             storage.HeadBucketForkOrSnapshotOutput.IsForkParent meta;
           simplestorage.BucketInfo.SourceBucket :=
             storage.HeadBucketForkOrSnapshotOutput.SourceBucket meta;
           simplestorage.BucketInfo.SourceSnapshot :=
             storage.HeadBucketForkOrSnapshotOutput.SourceBucketSnapshot meta |})).
Proof.
  intro Hname. cbv zeta.
  unfold simplestorage.GetBucketInfo.
  apply String.eqb_neq in Hname. rewrite Hname.
  rewrite run_bind.
  destruct (HeadBucketForkOrSnapshot_returns svc h (simplestorage.Client.cli c)
              {| s3.HeadBucketInput.Bucket := Some bucket |}
              (simplestorage.BucketOptions.S3Options
                 (range_apply opts simplestorage.BucketOptions.defaults)))
    as [res Hres].
  destruct (run svc h (storage.HeadBucketForkOrSnapshot _ _ _)) as [out h'].
  simpl in Hres. subst out.
  destruct res as [meta|err]; simpl.
  - split; [reflexivity|]. split; [eauto|].
    split; [intros err H; discriminate H|].
    intros meta' H. injection H as <-. reflexivity.
  - split; [reflexivity|]. split; [eauto|].
    split; [reflexivity|].
    intros meta H. discriminate H.
Qed.

Lemma GetBucketInfo_never_surfaces_the_fetch_error_witness :
  fst (run access_denied [] (simplestorage.GetBucketInfo (client_for "photos") "logs" []))
  = Returned (inl
      {| simplestorage.BucketInfo.Name := "logs";
         simplestorage.BucketInfo.Created := Time_zero;
         simplestorage.BucketInfo.SnapshotsEnabled := false;
         simplestorage.BucketInfo.IsForkParent := false;
         simplestorage.BucketInfo.SourceBucket := "";
         simplestorage.BucketInfo.SourceSnapshot := "" |})
  /\ fst (run forked_bucket [] (simplestorage.GetBucketInfo (client_for "photos") "logs" []))
     = Returned (inl
         {| simplestorage.BucketInfo.Name := "logs";
            simplestorage.BucketInfo.Created := Time_zero;
            simplestorage.BucketInfo.SnapshotsEnabled := true;
            simplestorage.BucketInfo.IsForkParent := false;
            simplestorage.BucketInfo.SourceBucket := "origin";
            simplestorage.BucketInfo.SourceSnapshot := "1700000000" |}).
Proof.
  split.
  - destruct (GetBucketInfo_never_surfaces_the_fetch_error
                (client_for "photos") "logs" [] access_denied [])
      as (_ & _ & Hfail & _); [discriminate|].
    apply (Hfail (sdkError (APIError "AccessDenied" "Access Denied"))).
    reflexivity.
  - destruct (GetBucketInfo_never_surfaces_the_fetch_error
                (client_for "photos") "logs" [] forked_bucket [])
      as (_ & _ & _ & Hok); [discriminate|].
    apply (Hok {| storage.HeadBucketForkOrSnapshotOutput.SnapshotsEnabled := true;
                  storage.HeadBucketForkOrSnapshotOutput.SourceBucket := "origin";
                  storage.HeadBucketForkOrSnapshotOutput.SourceBucketSnapshot :=
                    "1700000000";
                  storage.HeadBucketForkOrSnapshotOutput.IsForkParent := false |}).
    reflexivity.
Defined.

(** ** Snapshots *)



(** ** The take-snapshot header *)

Lemma every_app (p : ascii -> bool) (s t : string) :
  url.every p (s ++ t) = url.every p s && url.every p t.
Proof.
  induction s as [|c s IH]; simpl; [reflexivity|].
  rewrite IH. apply andb_assoc.
Qed.

Lemma escape_byte_plain (c : ascii) :
  url.every url.plain_byte (url.escape_byte c) = true.
Proof.
  destruct c as [[] [] [] [] [] [] [] []]; reflexivity.
Qed.

Lemma unescape_escape_byte (c : ascii) (rest : string) :
  url.QueryUnescape (url.escape_byte c ++ rest)
  = option_map (String c) (url.QueryUnescape rest).
Proof.
  destruct c as [[] [] [] [] [] [] [] []]; reflexivity.
Qed.

Lemma QueryEscape_roundtrip (s : string) :
  url.QueryUnescape (url.QueryEscape s) = Some s.
Proof.
  induction s as [|c s IH]; [reflexivity|].
  cbn [url.QueryEscape].
  rewrite unescape_escape_byte, IH. reflexivity.
Qed.

Lemma QueryEscape_plain (s : string) :
  url.every url.plain_byte (url.QueryEscape s) = true.
Proof.
  induction s as [|c s IH]; [reflexivity|].
  cbn [url.QueryEscape].
  rewrite every_app, escape_byte_plain, IH. reflexivity.
Qed.

Lemma added_headers_WithHeader (opts : list s3.OptFn) (key value : string) :
  s3.added_headers (opts ++ [tigrisheaders.WithHeader key value])
  = s3.added_headers opts ++ [s3.AddHeaderValue key value].
Proof.
  unfold s3.added_headers, s3.OptFn in *.
  rewrite range_apply_app. reflexivity.
Qed.

(** C9. [CreateBucketSnapshot] makes exactly one call, a bucket creation
    with the caller's input, and returns its reply.  To the caller's request
    options it adds one header, [X-Tigris-Snapshot], after any header those
    options add.  The header's value is [true; name=] followed by the
    query-escaped description.  Whatever the description, the escaped part
    unescapes to the description, and it is made of visible ASCII bytes
    other than the semicolon: no space, no line break, no byte of a
    multi-byte rune, nothing that would split the value. *)
Theorem CreateBucketSnapshot_header (c : storage.Client.t) (description : string)
  (in_ : s3.CreateBucketInput.t) (opts : list s3.OptFn) :
  storage.CreateBucketSnapshot c description in_ opts
  = Call (s3.CreateBucket in_ (opts ++ [tigrisheaders.WithTakeSnapshot description]))
      (fun r => Return (storage.through r))
  /\ s3.added_headers (opts ++ [tigrisheaders.WithTakeSnapshot description])
     = s3.added_headers opts
       ++ [s3.AddHeaderValue "X-Tigris-Snapshot"
             ("true; name=" ++ url.QueryEscape description)]
  /\ url.QueryUnescape (url.QueryEscape description) = Some description
  /\ url.every url.plain_byte (url.QueryEscape description) = true.
Proof.
  split; [reflexivity|].
  split; [apply added_headers_WithHeader|].
  split; [apply QueryEscape_roundtrip|apply QueryEscape_plain].
Qed.

(** ** Force delete *)




(** The two runs of the force delete on a bucket of two objects: all calls
    succeed; and the second delete is refused. *)
Example force_delete_of_two_objects :
  run two_objects []
    (simplestorage.DeleteBucket (client_for "photos") "logs"
       [simplestorage.WithForceDelete])
  = (Returned None,
     [Ev (s3.ListObjectsV2 (simplestorage.empty_list_request "logs") [])
        (inl two_objects_page);
      Ev (s3.DeleteObject (simplestorage.delete_request "logs" (listed "a.txt")) [])
        (inl {| s3.DeleteObjectOutput.DeleteMarker := None |});
      Ev (s3.DeleteObject (simplestorage.delete_request "logs" (listed "b.txt")) [])
        (inl {| s3.DeleteObjectOutput.DeleteMarker := None |});
      Ev (s3.DeleteBucket {| s3.DeleteBucketInput.Bucket := Some "logs" |} [])
        (inl {| s3.DeleteBucketOutput.RequestID := "" |})]).
Proof. reflexivity. Qed.

Example force_delete_stops_at_the_locked_object :
  run b_is_locked []
    (simplestorage.DeleteBucket (client_for "photos") "logs"
       [simplestorage.WithForceDelete])
  = (Returned
       (Some (errors.Errorf_w "simplestorage: can't empty bucket %s: %w"
                [ArgString "logs"]
                (errors.Errorf_w "can't delete object %s: %w" [ArgString "b.txt"]
                   (sdkError (APIError "AccessDenied" "object is locked"))))),
     [Ev (s3.ListObjectsV2 (simplestorage.empty_list_request "logs") [])
        (inl two_objects_page);
      Ev (s3.DeleteObject (simplestorage.delete_request "logs" (listed "a.txt")) [])
        (inl {| s3.DeleteObjectOutput.DeleteMarker := None |});
      delete_failed "logs" [] (listed "b.txt")
        (APIError "AccessDenied" "object is locked")]).
Proof. reflexivity. Qed.

(** When the list call itself fails, the force delete stops there: no
    delete call, no bucket-delete call, and the failure wrapped twice. *)
Lemma DeleteBucket_force_list_failure (c : simplestorage.Client.t)
  (bucket : string) (opts : list simplestorage.BucketOption)
  (svc : Service) (h : list Event) (err : SdkError) :
  let o := range_apply opts simplestorage.BucketOptions.defaults in
  let listing :=
    s3.ListObjectsV2 (simplestorage.empty_list_request bucket)
      (simplestorage.BucketOptions.S3Options o) in
  bucket <> "" ->
  simplestorage.BucketOptions.ForceDelete o = true ->
  svc h listing = inr err ->
  run svc h (simplestorage.DeleteBucket c bucket opts)
  = (Returned
       (Some (errors.Errorf_w "simplestorage: can't empty bucket %s: %w"
                [ArgString bucket]
                (errors.Errorf_w "can't list objects: %w" [] (sdkError err)))),
     h ++ [Ev listing (inr err)]).
Proof.
  cbv zeta. intros Hname Hforce Hlist.
  unfold simplestorage.DeleteBucket, simplestorage.emptyBucket.
  apply String.eqb_neq in Hname. rewrite Hname, Hforce.
  cbn [bind call run]. rewrite Hlist. reflexivity.
Qed.

(** ** The sentinel errors *)

Lemma delete_each_unrelated (bucket : string)
  (o : simplestorage.BucketOptions.t) (contents : list s3.Object.t) :
  always unrelated (simplestorage.delete_each bucket o contents).
Proof.
  induction contents as [|obj rest IH]; simpl; [exact I|].
  intros [out|err]; simpl; [exact IH|].
  destruct (s3.Object.Key obj); simpl; auto.
Qed.

Lemma always_bind_any {A B : Type} (Q : B -> Prop) (p : Prog A)
  (f : A -> Prog B) :
  (forall a, always Q (f a)) -> always Q (bind p f).
Proof.
  intro Hf. induction p as [a| |o k IH]; simpl; auto.
Qed.

(** Case analysis on whatever a program branches on, one reply at a time. *)
Ltac branch :=
  repeat (simpl;
          match goal with
          | |- forall _, _ => intro
          | r : (_ + _)%type |- _ => destruct r
          | |- always _ (if ?b then _ else _) => destruct b
          | |- always _ (match ?x with _ => _ end) => destruct x
          | |- always _ ?p =>
              match p with
              | context [match ?x with _ => _ end] => destruct x
              end
          | |- unrelated _ => unfold unrelated
          | |- _ /\ _ => split
          | |- True => exact I
          | |- _ = _ => reflexivity
          end).

(** C8 on the code.  Of the four sentinels only [ErrNoBucketName] is ever
    returned: [simplestorage.New] returns an error that matches it.  No
    exported function or method of the two packages, on any arguments and
    against any service, returns an error that matches [ErrBucketNotFound],
    [ErrBucketNotEmpty] or [ErrSnapshotRequired]. *)
Theorem bucket_sentinels_are_never_returned :
  (exists err,
      invoke (simple_New no_env []) = Return (Some err)
      /\ errors.Is err simplestorage.ErrNoBucketName = true)
  /\ (forall i : Invocation, always unrelated (invoke i))
  /\ fst (run bucket_not_empty []
            (simplestorage.DeleteBucket (client_for "photos") "logs" []))
     = Returned
         (Some (errors.Errorf_w "simplestorage: can't delete bucket %s: %w"
                  [ArgString "logs"]
                  (sdkError (APIError "BucketNotEmpty"
                               "The bucket you tried to delete is not empty")))).
Proof.
  split; [eexists; split; reflexivity|].
  split; [|reflexivity].
  intro i; destruct i; unfold invoke.
  - unfold storage.New. branch.
  - unfold storage.CreateBucketFork. branch.
  - unfold storage.CreateBucketSnapshot. branch.
  - unfold storage.CreateSnapshotEnabledBucket. branch.
  - unfold storage.HeadBucketForkOrSnapshot. branch.
  - unfold storage.ListBucketSnapshots. branch.
  - unfold storage.RenameObject. branch.
  - unfold simplestorage.New, storage.New.
    destruct (simplestorage.Options.BucketName _ =? ""); branch.
  - unfold simplestorage.Get. branch.
  - unfold simplestorage.Head. branch.
  - unfold simplestorage.Put. branch.
  - unfold simplestorage.Delete. branch.
  - unfold simplestorage.List. branch.
  - unfold simplestorage.PresignURL, simplestorage.presignURLGet,
      simplestorage.presignURLPut, simplestorage.presignURLDelete. branch.
  - unfold simplestorage.CreateBucket, storage.CreateSnapshotEnabledBucket.
    branch.
  - unfold simplestorage.DeleteBucket, simplestorage.emptyBucket,
      simplestorage.delete_bucket_call.
    destruct (bucket =? ""); [branch|].
    destruct (simplestorage.BucketOptions.ForceDelete _); [|branch].
    simpl. intros [resp|err]; [|branch].
    apply always_bind with (P := unrelated);
      [apply delete_each_unrelated|].
    intros [err|] Herr; [|branch].
    simpl. unfold unrelated in *. simpl. exact Herr.
  - unfold simplestorage.ListBuckets. simpl.
    intros [resp|err]; [|branch].
    apply always_bind with (P := fun r => unrelated (failure r)).
    + apply always_bind_any. intro buckets. exact I.
    + intros r Hr. exact Hr.
  - unfold simplestorage.GetBucketInfo, storage.HeadBucketForkOrSnapshot.
    branch.
  - unfold simplestorage.CreateBucketSnapshot, storage.CreateBucketSnapshot.
    branch.
  - unfold simplestorage.ListBucketSnapshots. branch.
  - unfold simplestorage.ForkBucket. branch.
Qed.

(** ** Beyond the settled properties: pointer helpers *)


(** ** Beyond the settled properties: request headers *)

Lemma added_headers_header_option (opts : list s3.OptFn) (f : s3.OptFn)
  (key value : string) :
  header_option key value f ->
  s3.added_headers (opts ++ [f])
  = s3.added_headers opts ++ [s3.AddHeaderValue key value].
Proof.
  intro Hf. unfold s3.added_headers, s3.OptFn in *.
  rewrite range_apply_app. simpl. rewrite Hf. reflexivity.
Qed.

Lemma added_headers_all (opts fns : list s3.OptFn)
  (headers : list (string * string)) :
  Forall2 (fun f kv => header_option (fst kv) (snd kv) f) fns headers ->
  s3.added_headers (opts ++ fns)
  = s3.added_headers opts
    ++ map (fun kv => s3.AddHeaderValue (fst kv) (snd kv)) headers.
Proof.
  intro Hall. revert opts.
  induction Hall as [|f kv fns headers Hf _ IH]; intro opts; simpl.
  - now rewrite !app_nil_r.
  - change (f :: fns) with ([f] ++ fns).
    rewrite app_assoc, IH.
    rewrite (added_headers_header_option opts f (fst kv) (snd kv) Hf).
    rewrite <- app_assoc. reflexivity.
Qed.

(** X2. Every header helper of [tigrisheaders] appends exactly one header to
    the request options and leaves the endpoint, region, path style,
    credentials and earlier headers as they were.  So options compose: the
    headers a call adds are those of its option functions, one each, in
    argument order, duplicates kept. *)
Theorem header_helpers_compose :
  (forall key value, header_option key value (tigrisheaders.WithHeader key value))
  /\ (forall regions,
        header_option "X-Tigris-Regions" (tigrisheaders.Join regions ",")
          (tigrisheaders.WithStaticReplicationRegions regions))
  /\ (forall query,
        header_option "X-Tigris-Query" query (tigrisheaders.WithQuery query))
  /\ (forall etag,
        header_option "If-Match" etag (tigrisheaders.WithIfEtagMatches etag))
  /\ header_option "X-Tigris-CAS" "true" tigrisheaders.WithCompareAndSwap
  /\ header_option "X-Tigris-Enable-Snapshot" "true"
       tigrisheaders.WithEnableSnapshot
  /\ (forall desc,
        header_option "X-Tigris-Snapshot"
          ("true; name=" ++ url.QueryEscape desc)
          (tigrisheaders.WithTakeSnapshot desc))
  /\ (forall version,
        header_option "X-Tigris-Snapshot-Version" version
          (tigrisheaders.WithSnapshotVersion version))
  /\ header_option "X-Tigris-Rename" "true" tigrisheaders.WithRename
  /\ (forall (opts fns : list s3.OptFn) (headers : list (string * string)),
        Forall2 (fun f kv => header_option (fst kv) (snd kv) f) fns headers ->
        s3.added_headers (opts ++ fns)
        = s3.added_headers opts
          ++ map (fun kv => s3.AddHeaderValue (fst kv) (snd kv)) headers).
Proof.
  do 9 (split;
        [intros; intro options;
         unfold tigrisheaders.WithStaticReplicationRegions;
         rewrite ?map_id; reflexivity|]).
  intros opts fns headers Hall. apply added_headers_all. exact Hall.
Qed.

Lemma header_helpers_compose_witness :
  s3.added_headers
    ([tigrisheaders.WithHeader "X-Header-1" "value1"]
     ++ [tigrisheaders.WithHeader "X-Header-1" "value1";
         tigrisheaders.WithStaticReplicationRegions ["fra"; "sjc"];
         tigrisheaders.WithCompareAndSwap])
  = s3.added_headers [tigrisheaders.WithHeader "X-Header-1" "value1"]
    ++ [s3.AddHeaderValue "X-Header-1" "value1";
        s3.AddHeaderValue "X-Tigris-Regions" "fra,sjc";
        s3.AddHeaderValue "X-Tigris-CAS" "true"].
Proof.
  destruct header_helpers_compose as (_ & _ & _ & _ & _ & _ & _ & _ & _ & Hall).
  apply (Hall [tigrisheaders.WithHeader "X-Header-1" "value1"]
           [tigrisheaders.WithHeader "X-Header-1" "value1";
            tigrisheaders.WithStaticReplicationRegions ["fra"; "sjc"];
            tigrisheaders.WithCompareAndSwap]
           [("X-Header-1", "value1"); ("X-Tigris-Regions", "fra,sjc");
            ("X-Tigris-CAS", "true")]).
  repeat constructor.
Defined.

(** X3. The take-snapshot header tells descriptions apart: two descriptions
    with the same header value are the same description. *)
Theorem take_snapshot_value_injective (d1 d2 : string) :
  tigrisheaders.take_snapshot_value d1 = tigrisheaders.take_snapshot_value d2 ->
  d1 = d2.
Proof.
  unfold tigrisheaders.take_snapshot_value. intro Heq.
  assert (Hesc : url.QueryEscape d1 = url.QueryEscape d2).
  { simpl in Heq. repeat (injection Heq as Heq). exact Heq. }
  pose proof (QueryEscape_roundtrip d1) as H1.
  rewrite Hesc, QueryEscape_roundtrip in H1. congruence.
Qed.

Lemma take_snapshot_value_injective_witness :
  "Backup before migration" = "Backup before migration".
Proof.
  apply (take_snapshot_value_injective "Backup before migration"
           "Backup before migration").
  reflexivity.
Defined.

(** ** Beyond the settled properties: the storage client *)

(** X4. [CreateBucketFork], [CreateSnapshotEnabledBucket],
    [ListBucketSnapshots] and [RenameObject] each make exactly one SDK call,
    hand the caller's input through, add one header after whatever the
    caller's options add, and return the SDK's reply as it is: an SDK error
    comes back unwrapped. *)
Theorem storage_methods_are_one_annotated_call (c : storage.Client.t)
  (opts : list s3.OptFn) :
  (forall source target,
      exists fns,
        storage.CreateBucketFork c source target opts
        = Call (s3.CreateBucket {| s3.CreateBucketInput.Bucket := Some target |} fns)
            (fun r => Return (storage.through r))
        /\ s3.added_headers fns
           = s3.added_headers opts
             ++ [s3.AddHeaderValue "X-Tigris-Fork-Source-Bucket" source])
  /\ (forall in_,
      exists fns,
        storage.CreateSnapshotEnabledBucket c in_ opts
        = Call (s3.CreateBucket in_ fns) (fun r => Return (storage.through r))
        /\ s3.added_headers fns
           = s3.added_headers opts
             ++ [s3.AddHeaderValue "X-Tigris-Enable-Snapshot" "true"])
  /\ (forall bucketName,
      exists fns,
        storage.ListBucketSnapshots c bucketName opts
        = Call (s3.ListBuckets
                  {| s3.ListBucketsInput.ContinuationToken := None |} fns)
            (fun r => Return (storage.through r))
        /\ s3.added_headers fns
           = s3.added_headers opts
             ++ [s3.AddHeaderValue "X-Tigris-Snapshot" bucketName])
  /\ (forall in_,
      exists fns,
        storage.RenameObject c in_ opts
        = Call (s3.CopyObject in_ fns) (fun r => Return (storage.through r))
        /\ s3.added_headers fns
           = s3.added_headers opts ++ [s3.AddHeaderValue "X-Tigris-Rename" "true"])
  /\ (forall (Out : Type) (out : Out) (err : SdkError),
      storage.through (inl out) = inl out
      /\ storage.through (inr err : Out + SdkError) = inr (sdkError err)
      /\ errors_As (sdkError err) = Some err).
Proof.
  repeat split; intros; try reflexivity;
    (eexists; split; [reflexivity|];
     apply added_headers_header_option; intro options; reflexivity).
Qed.

(** X5. [HeadBucketForkOrSnapshot] makes one [HeadBucket] call with the
    caller's input and options, adding nothing, and never panics.  An SDK
    error comes back as it is.  A reply without a raw HTTP response is an
    error that wraps nothing.  Otherwise the two flags are true exactly for
    the header value [true], the two names are the header values, and a
    response without the four headers gives the all-empty metadata. *)
Theorem HeadBucketForkOrSnapshot_reads_four_headers (c : storage.Client.t)
  (in_ : s3.HeadBucketInput.t) (opts : list s3.OptFn) :
  exists k,
    storage.HeadBucketForkOrSnapshot c in_ opts = Call (s3.HeadBucket in_ opts) k
    /\ (forall err, k (inr err) = Return (inr (sdkError err)))
    /\ (exists err,
          k (inl {| s3.HeadBucketOutput.RawResponse := None |}) = Return (inr err)
          /\ errors_As err = None
          /\ Forall (fun s => errors.Is err s = false) sentinels)
    /\ (forall header, exists meta,
          k (inl {| s3.HeadBucketOutput.RawResponse := Some header |})
          = Return (inl meta)
          /\ (storage.HeadBucketForkOrSnapshotOutput.SnapshotsEnabled meta = true
              <-> http.Get header "X-Tigris-Enable-Snapshot" = "true")
          /\ (storage.HeadBucketForkOrSnapshotOutput.IsForkParent meta = true
              <-> http.Get header "X-Tigris-Is-Fork-Parent" = "true")
          /\ storage.HeadBucketForkOrSnapshotOutput.SourceBucket meta
             = http.Get header "X-Tigris-Fork-Source-Bucket"
          /\ storage.HeadBucketForkOrSnapshotOutput.SourceBucketSnapshot meta
             = http.Get header "X-Tigris-Fork-Source-Bucket-Snapshot")
    /\ k (inl {| s3.HeadBucketOutput.RawResponse := Some [] |})
       = Return (inl no_metadata).
Proof.
  unfold storage.HeadBucketForkOrSnapshot, call. cbn [bind].
  eexists. split; [reflexivity|].
  split; [reflexivity|].
  split.
  - eexists. split; [reflexivity|]. split; [reflexivity|].
    repeat constructor.
  - split; [|reflexivity].
    intro header. eexists. split; [reflexivity|]. cbn.
    split; [apply String.eqb_eq|].
    split; [apply String.eqb_eq|].
    split; reflexivity.
Qed.

(** X6. [storage.New] makes one call, the loading of the SDK configuration.
    When that fails it returns no client and an error that wraps the SDK's,
    so [errors.As] finds it.  When it succeeds and the resolved key id or
    secret is empty, the half-given pair is dropped: the client keeps the
    credentials of the loaded configuration, while its region, endpoint and
    path style are still the resolved ones and not the configuration's. *)
Theorem storage_New_outcomes (env : Env) (options : list storage.Option)
  (svc : Service) (h : list Event) :
  let o := range_apply options (storage.Options.defaults env) in
  let result := run svc h (storage.New env options) in
  (forall err,
      svc h s3.LoadDefaultConfig = inr err ->
      exists wrapped,
        result = (Returned (inr wrapped), h ++ [Ev s3.LoadDefaultConfig (inr err)])
        /\ errors_As wrapped = Some err)
  /\ (forall cfg,
      svc h s3.LoadDefaultConfig = inl cfg ->
      exists c,
        result = (Returned (inl c), h ++ [Ev s3.LoadDefaultConfig (inl cfg)])
        /\ s3.Region (s3.options (storage.Client.Client c))
           = storage.Options.Region o
        /\ s3.BaseEndpoint (s3.options (storage.Client.Client c))
           = Some (storage.Options.BaseEndpoint o)
        /\ (storage.Options.AccessKeyID o = ""
            \/ storage.Options.SecretAccessKey o = "" ->
            s3.Credentials (s3.options (storage.Client.Client c))
            = aws.ConfigCredentials cfg)).
Proof.
  cbv zeta. unfold storage.New. cbn [bind call run]. split.
  - intros err Hload. rewrite Hload. cbn [run].
    eexists. split; reflexivity.
  - intros cfg Hload. rewrite Hload. cbn [run].
    eexists. split; [reflexivity|]. cbn.
    split; [reflexivity|]. split; [reflexivity|].
    intros [Hk|Hs].
    + rewrite Hk. reflexivity.
    + rewrite Hs. rewrite andb_false_r. reflexivity.
Qed.

Lemma storage_New_outcomes_witness :
  (exists wrapped,
      run config_unavailable [] (storage.New no_env [])
      = (Returned (inr wrapped),
         [] ++ [Ev s3.LoadDefaultConfig
                  (inr (APIError "ConfigError" "no configuration"))])
      /\ errors_As wrapped = Some (APIError "ConfigError" "no configuration"))
  /\ (exists c,
      run configured_host []
        (storage.New no_env [storage.WithAccessKeypair "key" ""])
      = (Returned (inl c), [] ++ [Ev s3.LoadDefaultConfig (inl host_config)])
      /\ s3.Region (s3.options (storage.Client.Client c)) = "auto"
      /\ s3.Credentials (s3.options (storage.Client.Client c))
         = Some (aws.StaticCredentials "host" "hostsecret" "")).
Proof.
  split.
  - destruct (storage_New_outcomes no_env [] config_unavailable []) as [Hfail _].
    apply (Hfail (APIError "ConfigError" "no configuration")). reflexivity.
  - destruct (storage_New_outcomes no_env [storage.WithAccessKeypair "key" ""]
                configured_host []) as [_ Hok].
    destruct (Hok host_config) as (c & Hrun & Hregion & _ & Hcreds);
      [reflexivity|].
    exists c. split; [exact Hrun|]. split; [exact Hregion|].
    apply Hcreds. right. reflexivity.
Defined.

(** X7. A client that [simplestorage.New] returns was built from options
    with a bucket name, and its SDK client is configured with the resolved
    endpoint, region and path style.  Its credentials are the resolved key
    pair when both halves are set; when they are not, the pair found in the
    environment is used all the same, if both of its halves are set, even
    after an option has emptied the resolved pair. *)
Theorem simplestorage_New_configures_the_sdk (env : Env)
  (options : list simplestorage.Option) (svc : Service) (h : list Event)
  (c : simplestorage.Client.t) :
  fst (run svc h (simplestorage.New env options)) = Returned (inl c) ->
  let o := range_apply options (simplestorage.Options.defaults env) in
  let cfg := s3.options (storage.Client.Client (simplestorage.Client.cli c)) in
  simplestorage.Options.BucketName o <> ""
  /\ s3.BaseEndpoint cfg = Some (simplestorage.Options.BaseEndpoint o)
  /\ s3.Region cfg = simplestorage.Options.Region o
  /\ s3.UsePathStyle cfg = simplestorage.Options.UsePathStyle o
  /\ (simplestorage.Options.AccessKeyID o <> "" ->
      simplestorage.Options.SecretAccessKey o <> "" ->
      s3.Credentials cfg
      = Some (aws.StaticCredentials (simplestorage.Options.AccessKeyID o)
                (simplestorage.Options.SecretAccessKey o) ""))
  /\ (simplestorage.Options.AccessKeyID o = ""
      \/ simplestorage.Options.SecretAccessKey o = "" ->
      env "TIGRIS_STORAGE_ACCESS_KEY_ID" <> "" ->
      env "TIGRIS_STORAGE_SECRET_ACCESS_KEY" <> "" ->
      s3.Credentials cfg
      = Some (aws.StaticCredentials (env "TIGRIS_STORAGE_ACCESS_KEY_ID")
                (env "TIGRIS_STORAGE_SECRET_ACCESS_KEY") "")).
Proof.
  intro Hrun. cbv zeta.
  set (o := range_apply options (simplestorage.Options.defaults env)) in *.
  unfold simplestorage.New in Hrun. fold o in Hrun.
  destruct (simplestorage.Options.BucketName o =? "") eqn:Eb;
    [simpl in Hrun; discriminate|].
  cbn [length Nat.eqb negb] in Hrun.
  split; [apply String.eqb_neq; exact Eb|].
  destruct (simplestorage.Options.BaseEndpoint o =? storage.GlobalEndpoint) eqn:Ee;
    [pose proof (proj1 (String.eqb_eq _ _) Ee) as He|];
  (destruct (simplestorage.Options.AccessKeyID o =? "") eqn:Ek;
   [pose proof (proj1 (String.eqb_eq _ _) Ek) as Hk
   |pose proof (proj1 (String.eqb_neq _ _) Ek) as Hk]);
  (destruct (simplestorage.Options.SecretAccessKey o =? "") eqn:Es;
   [pose proof (proj1 (String.eqb_eq _ _) Es) as Hs
   |pose proof (proj1 (String.eqb_neq _ _) Es) as Hs]);
  unfold storage.New in Hrun; cbn [bind call run] in Hrun;
  (destruct (svc h s3.LoadDefaultConfig) as [cfg0|err];
   cbn in Hrun; [|discriminate]);
  injection Hrun as <-; cbn; rewrite ?Ek, ?Es; cbn;
  try rewrite He;
  (split; [reflexivity|]); (split; [reflexivity|]); (split; [reflexivity|]);
  (split;
   [intros; try congruence; reflexivity
   |intros Hor Hek Hes; try (destruct Hor; congruence);
    apply String.eqb_neq in Hek, Hes; rewrite Hek, Hes; reflexivity]).
Qed.

Lemma simplestorage_New_configures_the_sdk_witness :
  exists c,
    fst (run configured_host []
           (simplestorage.New keyed_env
              [simplestorage.WithBucket "photos"; simplestorage.WithFlyEndpoint;
               simplestorage.WithAccessKeypair "" ""]))
    = Returned (inl c)
    /\ s3.BaseEndpoint (s3.options (storage.Client.Client (simplestorage.Client.cli c)))
       = Some "https://fly.storage.tigris.dev"
    /\ s3.Credentials (s3.options (storage.Client.Client (simplestorage.Client.cli c)))
       = Some (aws.StaticCredentials "envkey" "envsecret" "").
Proof.
  destruct (run configured_host []
              (simplestorage.New keyed_env
                 [simplestorage.WithBucket "photos"; simplestorage.WithFlyEndpoint;
                  simplestorage.WithAccessKeypair "" ""])) as [out h'] eqn:Hrun.
  assert (Hout : exists c, out = Returned (inl c)).
  { vm_compute in Hrun. injection Hrun as <- _. eexists; reflexivity. }
  destruct Hout as [c ->].
  exists c. split; [reflexivity|].
  destruct (simplestorage_New_configures_the_sdk keyed_env
              [simplestorage.WithBucket "photos"; simplestorage.WithFlyEndpoint;
               simplestorage.WithAccessKeypair "" ""]
              configured_host [] c)
    as (_ & Hend & _ & _ & _ & Henv).
  - rewrite Hrun. reflexivity.
  - split; [exact Hend|].
    apply Henv; [left; reflexivity|discriminate|discriminate].
Defined.

(** ** Beyond the settled properties: how failures come back *)

(** X8. The five object operations flatten a failure of their SDK call: each
    makes that call first, and when it fails returns an error built with
    [%v], which has no chain, so [errors.As] cannot get the SDK error back
    and [errors.Is] matches none of the sentinels. *)
Theorem object_operations_flatten_the_sdk_error (c : simplestorage.Client.t)
  (key : string) (obj : simplestorage.Object.t)
  (opts : list simplestorage.ClientOption) :
  let flat (err : error) :=
    errors_As err = None /\ Forall (fun s => errors.Is err s = false) sentinels in
  (exists params fns k,
      simplestorage.Get c key opts = Call (s3.GetObject params fns) k
      /\ forall e, exists err, k (inr e) = Return (inr err) /\ flat err)
  /\ (exists params fns k,
      simplestorage.Head c key opts = Call (s3.HeadObject params fns) k
      /\ forall e, exists err, k (inr e) = Return (inr err) /\ flat err)
  /\ (exists params fns k,
      simplestorage.Put c obj opts = Call (s3.PutObject params fns) k
      /\ forall e, exists err, k (inr e) = Return (inr err) /\ flat err)
  /\ (exists params fns k,
      simplestorage.Delete c key opts = Call (s3.DeleteObject params fns) k
      /\ forall e, exists err, k (inr e) = Return (Some err) /\ flat err)
  /\ (exists params fns k,
      simplestorage.List c opts = Call (s3.ListObjectsV2 params fns) k
      /\ forall e, exists err, k (inr e) = Return (inr err) /\ flat err).
Proof.
  cbv zeta.
  unfold simplestorage.Get, simplestorage.Head, simplestorage.Put,
    simplestorage.Delete, simplestorage.List, call. cbn [bind].
  repeat split;
    (do 3 eexists; split; [reflexivity|];
     intro e; eexists; split; [reflexivity|];
     split; [reflexivity|repeat constructor]).
Qed.

(** X9. The bucket operations wrap a failure of their SDK call with [%w]:
    for a non-empty bucket name each makes that call first, and when it
    fails returns an error from which [errors.As] gets the SDK error back.
    [DeleteBucket] is taken without the force flag. *)
Theorem bucket_operations_wrap_the_sdk_error (c : simplestorage.Client.t)
  (bucket other description : string)
  (opts : list simplestorage.BucketOption) :
  bucket <> "" ->
  other <> "" ->
  (exists params fns k,
      simplestorage.CreateBucket c bucket opts = Call (s3.CreateBucket params fns) k
      /\ forall e, exists err,
          k (inr e) = Return (inr err) /\ errors_As err = Some e)
  /\ (simplestorage.BucketOptions.ForceDelete
        (range_apply opts simplestorage.BucketOptions.defaults) = false ->
      exists params fns k,
        simplestorage.DeleteBucket c bucket opts
        = Call (s3.DeleteBucket params fns) k
        /\ forall e, exists err,
            k (inr e) = Return (Some err) /\ errors_As err = Some e)
  /\ (exists params fns k,
      simplestorage.ListBuckets c opts = Call (s3.ListBuckets params fns) k
      /\ forall e, exists err,
          k (inr e) = Return (inr err) /\ errors_As err = Some e)
  /\ (exists params fns k,
      simplestorage.CreateBucketSnapshot c bucket description opts
      = Call (s3.CreateBucket params fns) k
      /\ forall e, exists err,
          k (inr e) = Return (inr err) /\ errors_As err = Some e)
  /\ (exists params fns k,
      simplestorage.ListBucketSnapshots c bucket opts
      = Call (s3.ListBuckets params fns) k
      /\ forall e, exists err,
          k (inr e) = Return (inr err) /\ errors_As err = Some e)
  /\ (exists params fns k,
      simplestorage.ForkBucket c bucket other opts
      = Call (s3.CreateBucket params fns) k
      /\ forall e, exists err,
          k (inr e) = Return (inr err) /\ errors_As err = Some e).
Proof.
  intros Hb Ho.
  apply String.eqb_neq in Hb, Ho.
  unfold simplestorage.CreateBucket, simplestorage.DeleteBucket,
    simplestorage.ListBuckets, simplestorage.CreateBucketSnapshot,
    simplestorage.ListBucketSnapshots, simplestorage.ForkBucket,
    simplestorage.delete_bucket_call, storage.CreateSnapshotEnabledBucket,
    storage.CreateBucketSnapshot, call.
  rewrite Hb, Ho.
  split; [|split; [|repeat split]].
  - destruct (simplestorage.BucketOptions.EnableSnapshot _); cbn [bind];
      (do 3 eexists; split; [reflexivity|];
       intro e; eexists; split; reflexivity).
  - intro Hforce. rewrite Hforce. cbn [bind].
    do 3 eexists. split; [reflexivity|].
    intro e; eexists; split; reflexivity.
  - cbn [bind]. do 3 eexists. split; [reflexivity|].
    intro e; eexists; split; reflexivity.
  - cbn [bind]. do 3 eexists. split; [reflexivity|].
    intro e; eexists; split; reflexivity.
  - cbn [bind]. do 3 eexists. split; [reflexivity|].
    intro e; eexists; split; reflexivity.
  - cbn [bind]. do 3 eexists. split; [reflexivity|].
    intro e; eexists; split; reflexivity.
Qed.

Lemma bucket_operations_wrap_the_sdk_error_witness :
  exists params fns k,
    simplestorage.DeleteBucket (client_for "photos") "logs" []
    = Call (s3.DeleteBucket params fns) k
    /\ forall e, exists err,
        k (inr e) = Return (Some err) /\ errors_As err = Some e.
Proof.
  destruct (bucket_operations_wrap_the_sdk_error (client_for "photos")
              "logs" "copy" "nightly" []) as (_ & Hdel & _).
  - discriminate.
  - discriminate.
  - apply Hdel. reflexivity.
Defined.

(** ** Beyond the settled properties: the bucket of a call *)

(** X10. An object operation addresses the client's bucket unless the call
    overrides it: with [OverrideBucket] as the last option the request names
    the overriding bucket and so does the record handed back, and with no
    option the request names the bucket the client was created with. *)
Theorem OverrideBucket_redirects_one_call (c : simplestorage.Client.t)
  (key bucket : string) (obj : simplestorage.Object.t)
  (opts : list simplestorage.ClientOption) :
  let last := opts ++ [simplestorage.OverrideBucket bucket] in
  let own := simplestorage.Options.BucketName (simplestorage.Client.options c) in
  (exists fns k,
      simplestorage.Get c key last
      = Call (s3.GetObject {| s3.GetObjectInput.Bucket := Some bucket;
                              s3.GetObjectInput.Key := Some key |} fns) k
      /\ forall resp, exists o,
          k (inl resp) = Return (inl o)
          /\ simplestorage.Object.Bucket o = bucket
          /\ simplestorage.Object.Key o = key)
  /\ (exists fns k,
      simplestorage.Head c key last
      = Call (s3.HeadObject {| s3.HeadObjectInput.Bucket := Some bucket;
                               s3.HeadObjectInput.Key := Some key |} fns) k
      /\ forall resp, exists o,
          k (inl resp) = Return (inl o)
          /\ simplestorage.Object.Bucket o = bucket
          /\ simplestorage.Object.Key o = key)
  /\ (exists params fns k,
      simplestorage.Put c obj last = Call (s3.PutObject params fns) k
      /\ s3.PutObjectInput.Bucket params = Some bucket
      /\ forall resp, exists o,
          k (inl resp) = Return (inl o)
          /\ simplestorage.Object.Bucket o = bucket)
  /\ (exists fns k,
      simplestorage.Delete c key last
      = Call (s3.DeleteObject {| s3.DeleteObjectInput.Bucket := Some bucket;
                                 s3.DeleteObjectInput.Key := Some key |} fns) k)
  /\ (exists params fns k,
      simplestorage.List c last = Call (s3.ListObjectsV2 params fns) k
      /\ s3.ListObjectsV2Input.Bucket params = Some bucket
      /\ forall resp, exists result,
          k (inl resp) = Return (inl result)
          /\ Forall (fun o => simplestorage.Object.Bucket o = bucket)
               (simplestorage.ListResult.Items result))
  /\ (exists fns k,
      simplestorage.Get c key []
      = Call (s3.GetObject {| s3.GetObjectInput.Bucket := Some own;
                              s3.GetObjectInput.Key := Some key |} fns) k)
  /\ (exists fns k,
      simplestorage.Delete c key []
      = Call (s3.DeleteObject {| s3.DeleteObjectInput.Bucket := Some own;
                                 s3.DeleteObjectInput.Key := Some key |} fns) k).
Proof.
  cbv zeta.
  unfold simplestorage.Get, simplestorage.Head, simplestorage.Put,
    simplestorage.Delete, simplestorage.List, simplestorage.put_request,
    simplestorage.list_request, call.
  unfold simplestorage.ClientOption in *.
  rewrite !range_apply_app. cbn [bind range_apply].
  split; [|split; [|split; [|split; [|split; [|split]]]]].
  - do 2 eexists. split; [reflexivity|].
    intro resp. eexists. split; [reflexivity|]. split; reflexivity.
  - do 2 eexists. split; [reflexivity|].
    intro resp. eexists. split; [reflexivity|]. split; reflexivity.
  - do 3 eexists. split; [reflexivity|]. split; [reflexivity|].
    intro resp. eexists. split; reflexivity.
  - do 2 eexists. reflexivity.
  - do 3 eexists. split; [reflexivity|]. split; [reflexivity|].
    intro resp. eexists. split; [reflexivity|].
    cbn. rewrite list_items_map. cbn.
    induction (s3.ListObjectsV2Output.Contents resp); simpl; constructor; auto.
  - do 2 eexists. reflexivity.
  - do 2 eexists. reflexivity.
Qed.

(** X11. The seven bucket-management operations never fall back on the
    client's own bucket: two clients over the same storage client, whatever
    their options, run the same program for the same arguments. *)
Theorem bucket_management_ignores_the_client_bucket
  (c c' : simplestorage.Client.t) (bucket other description : string)
  (opts : list simplestorage.BucketOption) :
  simplestorage.Client.cli c = simplestorage.Client.cli c' ->
  simplestorage.CreateBucket c bucket opts = simplestorage.CreateBucket c' bucket opts
  /\ simplestorage.DeleteBucket c bucket opts
     = simplestorage.DeleteBucket c' bucket opts
  /\ simplestorage.ListBuckets c opts = simplestorage.ListBuckets c' opts
  /\ simplestorage.GetBucketInfo c bucket opts
     = simplestorage.GetBucketInfo c' bucket opts
  /\ simplestorage.CreateBucketSnapshot c bucket description opts
     = simplestorage.CreateBucketSnapshot c' bucket description opts
  /\ simplestorage.ListBucketSnapshots c bucket opts
     = simplestorage.ListBucketSnapshots c' bucket opts
  /\ simplestorage.ForkBucket c bucket other opts
     = simplestorage.ForkBucket c' bucket other opts.
Proof.
  intro Hcli.
  unfold simplestorage.CreateBucket, simplestorage.DeleteBucket,
    simplestorage.GetBucketInfo, simplestorage.CreateBucketSnapshot.
  rewrite Hcli. repeat split; reflexivity.
Qed.

Lemma bucket_management_ignores_the_client_bucket_witness :
  simplestorage.DeleteBucket (client_for "photos") "logs"
    [simplestorage.WithForceDelete]
  = simplestorage.DeleteBucket (client_for "videos") "logs"
      [simplestorage.WithForceDelete].
Proof.
  destruct (bucket_management_ignores_the_client_bucket
              (client_for "photos") (client_for "videos") "logs" "copy" "nightly"
              [simplestorage.WithForceDelete]) as (_ & Hdel & _).
  - reflexivity.
  - exact Hdel.
Defined.

(** X12. Every bucket-management operation that takes a bucket name checks
    it before anything else: with an empty name it returns at once, without
    a call, an error that is a new value on every call and matches none of
    the sentinels.  [ForkBucket] checks the source before the target. *)
Theorem empty_bucket_name_is_rejected_first (c : simplestorage.Client.t)
  (description target : string) (opts : list simplestorage.BucketOption) :
  let required :=
    errorString PerCall
      "simplestorage: bucket name required for bucket management operations" in
  simplestorage.CreateBucket c "" opts = Return (inr required)
  /\ simplestorage.DeleteBucket c "" opts = Return (Some required)
  /\ simplestorage.GetBucketInfo c "" opts = Return (inr required)
  /\ simplestorage.CreateBucketSnapshot c "" description opts
     = Return (inr required)
  /\ simplestorage.ListBucketSnapshots c "" opts = Return (inr required)
  /\ simplestorage.ForkBucket c "" target opts
     = Return (inr (errorString PerCall
         "simplestorage: source bucket name required for bucket management operations"))
  /\ (forall source, source <> "" ->
      simplestorage.ForkBucket c source "" opts
      = Return (inr (errorString PerCall
          "simplestorage: target bucket name required for bucket management operations")))
  /\ Forall (fun s => errors.Is required s = false) sentinels.
Proof.
  cbv zeta. repeat split; try reflexivity.
  - intros source Hs. unfold simplestorage.ForkBucket.
    apply String.eqb_neq in Hs. rewrite Hs. reflexivity.
  - repeat constructor.
Qed.

(** ** Beyond the settled properties: presigning *)

(** X13. For a non-empty key and a positive expiry [PresignURL] makes exactly
    one call, on the presign client, of the kind its method names, for the
    resolved bucket, the key and the expiry.  It returns the URL the presign
    client gave, as it is, or the empty string with an error that wraps the
    client's.  Only a PUT request carries the content type and disposition
    of the options; a GET or DELETE is the same with or without them. *)
Theorem PresignURL_routes_by_method (c : simplestorage.Client.t) (key : string)
  (expiry : Duration) (opts : list simplestorage.ClientOption) :
  key <> "" ->
  (0 < expiry)%Z ->
  let o := range_apply opts
             (simplestorage.ClientOptions.defaults (simplestorage.Client.options c)) in
  let bucket := simplestorage.ClientOptions.BucketName o in
  (exists k,
      simplestorage.PresignURL c "GET" key expiry opts
      = Call (s3.PresignGetObject
                {| s3.GetObjectInput.Bucket := Some bucket;
                   s3.GetObjectInput.Key := Some key |} expiry) k
      /\ (forall signed,
            k (inl signed) = Return (s3.PresignedHTTPRequest.URL signed, None))
      /\ (forall e, exists err,
            k (inr e) = Return ("", Some err) /\ errors_As err = Some e))
  /\ (exists params k,
      simplestorage.PresignURL c "PUT" key expiry opts
      = Call (s3.PresignPutObject params expiry) k
      /\ s3.PutObjectInput.Bucket params = Some bucket
      /\ s3.PutObjectInput.Key params = Some key
      /\ s3.PutObjectInput.ContentType params
         = simplestorage.ClientOptions.ContentType o
      /\ s3.PutObjectInput.ContentDisposition params
         = simplestorage.ClientOptions.ContentDisposition o
      /\ s3.PutObjectInput.Body params = None
      /\ s3.PutObjectInput.ContentLength params = None
      /\ (forall signed,
            k (inl signed) = Return (s3.PresignedHTTPRequest.URL signed, None))
      /\ (forall e, exists err,
            k (inr e) = Return ("", Some err) /\ errors_As err = Some e))
  /\ (exists k,
      simplestorage.PresignURL c "DELETE" key expiry opts
      = Call (s3.PresignDeleteObject
                {| s3.DeleteObjectInput.Bucket := Some bucket;
                   s3.DeleteObjectInput.Key := Some key |} expiry) k
      /\ (forall signed,
            k (inl signed) = Return (s3.PresignedHTTPRequest.URL signed, None))
      /\ (forall e, exists err,
            k (inr e) = Return ("", Some err) /\ errors_As err = Some e))
  /\ (forall contentType disposition,
      simplestorage.PresignURL c "GET" key expiry
        (opts ++ [simplestorage.WithContentType contentType;
                  simplestorage.WithContentDisposition disposition])
      = simplestorage.PresignURL c "GET" key expiry opts
      /\ simplestorage.PresignURL c "DELETE" key expiry
           (opts ++ [simplestorage.WithContentType contentType;
                     simplestorage.WithContentDisposition disposition])
         = simplestorage.PresignURL c "DELETE" key expiry opts).
Proof.
  intros Hkey Hexp. cbv zeta.
  apply String.eqb_neq in Hkey.
  assert (Hpos : (expiry <=? 0)%Z = false) by (apply Z.leb_gt; exact Hexp).
  unfold simplestorage.PresignURL, simplestorage.presignURLGet,
    simplestorage.presignURLPut, simplestorage.presignURLDelete, call,
    http.MethodGet, http.MethodPut, http.MethodDelete.
  rewrite Hkey, Hpos. cbn [String.eqb Ascii.eqb Bool.eqb orb negb bind].
  split; [|split; [|split; [|split]]].
  - eexists. split; [reflexivity|]. split; [reflexivity|].
    intro e. eexists. split; reflexivity.
  - do 2 eexists. split; [reflexivity|]. cbn.
    split; [reflexivity|]. split; [reflexivity|].
    split; [destruct (simplestorage.ClientOptions.ContentType _); reflexivity|].
    split; [destruct (simplestorage.ClientOptions.ContentDisposition _);
            reflexivity|].
    split; [reflexivity|]. split; [reflexivity|]. split; [reflexivity|].
    intro e. eexists. split; reflexivity.
  - eexists. split; [reflexivity|]. split; [reflexivity|].
    intro e. eexists. split; reflexivity.
  - unfold simplestorage.ClientOption in *.
    rewrite !range_apply_app. reflexivity.
  - unfold simplestorage.ClientOption in *.
    rewrite !range_apply_app. reflexivity.
Qed.

Lemma PresignURL_routes_by_method_witness :
  exists params k,
    simplestorage.PresignURL (client_for "photos") "PUT" "a.png" 900%Z
      [simplestorage.WithContentType "image/png"]
    = Call (s3.PresignPutObject params 900%Z) k
    /\ s3.PutObjectInput.Bucket params = Some "photos"
    /\ s3.PutObjectInput.ContentType params = Some "image/png"
    /\ k (signer [] (s3.PresignPutObject params 900%Z))
       = Return ("https://signed.example/put", None).
Proof.
  destruct (PresignURL_routes_by_method (client_for "photos") "a.png" 900%Z
              [simplestorage.WithContentType "image/png"])
    as (_ & (params & k & Heq & Hbucket & _ & Htype & _ & _ & _ & Hurl & _) & _).
  - discriminate.
  - reflexivity.
  - exists params, k.
    split; [exact Heq|]. split; [exact Hbucket|]. split; [exact Htype|].
    apply (Hurl {| s3.PresignedHTTPRequest.URL := "https://signed.example/put" |}).
Defined.

(** ** Beyond the settled properties: deleting buckets *)

(** X14. Without the force flag [DeleteBucket] makes one call, the bucket
    delete, and nothing else: it never lists or deletes objects.  Its result
    is nil when that call succeeds and the call's error, wrapped, when it
    fails. *)
Theorem DeleteBucket_without_force_is_one_call (c : simplestorage.Client.t)
  (bucket : string) (opts : list simplestorage.BucketOption)
  (svc : Service) (h : list Event) :
  let o := range_apply opts simplestorage.BucketOptions.defaults in
  let removal :=
    s3.DeleteBucket {| s3.DeleteBucketInput.Bucket := Some bucket |}
      (simplestorage.BucketOptions.S3Options o) in
  bucket <> "" ->
  simplestorage.BucketOptions.ForceDelete o = false ->
  run svc h (simplestorage.DeleteBucket c bucket opts)
  = (Returned
       match svc h removal with
       | inl _ => None
       | inr err =>
           Some (errors.Errorf_w "simplestorage: can't delete bucket %s: %w"
                   [ArgString bucket] (sdkError err))
       end,
     h ++ [Ev removal (svc h removal)]).
Proof.
  cbv zeta. intros Hname Hforce.
  unfold simplestorage.DeleteBucket, simplestorage.delete_bucket_call.
  apply String.eqb_neq in Hname. rewrite Hname, Hforce.
  cbn [bind call run].
  destruct (svc h _) as [out|err]; reflexivity.
Qed.

Lemma DeleteBucket_without_force_is_one_call_witness :
  run two_objects []
    (simplestorage.DeleteBucket (client_for "photos") "logs"
       [simplestorage.WithBucketRegion "fra"])
  = (Returned None,
     [] ++ [Ev (s3.DeleteBucket {| s3.DeleteBucketInput.Bucket := Some "logs" |}
                  [tigrisheaders.WithStaticReplicationRegions ["fra"]])
              (inl {| s3.DeleteBucketOutput.RequestID := "" |})]).
Proof.
  apply (DeleteBucket_without_force_is_one_call (client_for "photos") "logs"
           [simplestorage.WithBucketRegion "fra"] two_objects []).
  - discriminate.
  - reflexivity.
Defined.

(** The loop of [emptyBucket] over any listing: every delete succeeded; or
    the deletes before some object succeeded and the delete of that object
    failed, which ends the loop with the wrapped failure when the object has
    a key and with a panic when it has none. *)
Lemma delete_each_outcomes (svc : Service) (bucket : string)
  (o : simplestorage.BucketOptions.t) (contents : list s3.Object.t) :
  forall h,
    (exists evs,
        Forall2 (deleted bucket (simplestorage.BucketOptions.S3Options o))
          contents evs
        /\ run svc h (simplestorage.delete_each bucket o contents)
           = (Returned None, h ++ evs))
    \/ (exists done obj rest evs err,
        contents = done ++ obj :: rest
        /\ Forall2 (deleted bucket (simplestorage.BucketOptions.S3Options o))
             done evs
        /\ run svc h (simplestorage.delete_each bucket o contents)
           = (match s3.Object.Key obj with
              | Some key =>
                  Returned
                    (Some (errors.Errorf_w "can't delete object %s: %w"
                             [ArgString key] (sdkError err)))
              | None => Panicked
              end,
              h ++ evs
                ++ [delete_failed bucket
                      (simplestorage.BucketOptions.S3Options o) obj err])).
Proof.
  induction contents as [|obj rest IH]; intro h.
  - left. exists []. split; [constructor|]. simpl. now rewrite app_nil_r.
  - cbn [simplestorage.delete_each bind call run].
    destruct (svc h _) as [out|err].
    + set (ev := Ev (s3.DeleteObject (simplestorage.delete_request bucket obj)
                       (simplestorage.BucketOptions.S3Options o)) (inl out)).
      destruct (IH (h ++ [ev]))
        as [(evs & Hall & Hrun)|(done & obj' & rest' & evs & err
                                 & Hsplit & Hall & Hrun)].
      * left. exists (ev :: evs). split.
        -- constructor; [exists out; reflexivity|exact Hall].
        -- rewrite Hrun, <- app_assoc. reflexivity.
      * right. exists (obj :: done), obj', rest', (ev :: evs), err.
        split; [rewrite Hsplit; reflexivity|].
        split; [constructor; [exists out; reflexivity|exact Hall]|].
        rewrite Hrun, <- app_assoc. reflexivity.
    + right. exists [], obj, rest, [], err.
      split; [reflexivity|]. split; [constructor|].
      destruct (s3.Object.Key obj); reflexivity.
Qed.

Lemma deleted_no_bucket_delete (bucket : string) (fns : list s3.OptFn)
  (objs : list s3.Object.t) (evs : list Event) :
  Forall2 (deleted bucket fns) objs evs -> no_bucket_delete evs.
Proof.
  induction 1 as [|obj ev objs evs [out ->] _ IH]; constructor; auto.
Qed.

(** X15. [DeleteBucket] with the force flag, on any listing, objects without
    a key included.  Once a delete fails no further call is made: the calls
    are the listing, the deletes that succeeded and the one that failed, and
    no bucket delete among them.  The result is then the wrapped failure
    when the failing object has a key, and a panic when it has none, since
    the message dereferences the key. *)
Theorem DeleteBucket_force_stops_or_panics_at_a_failed_delete
  (c : simplestorage.Client.t) (bucket : string)
  (opts : list simplestorage.BucketOption) (svc : Service) (h : list Event)
  (resp : s3.ListObjectsV2Output.t) :
  let o := range_apply opts simplestorage.BucketOptions.defaults in
  let optFns := simplestorage.BucketOptions.S3Options o in
  let listing := s3.ListObjectsV2 (simplestorage.empty_list_request bucket) optFns in
  let removal :=
    s3.DeleteBucket {| s3.DeleteBucketInput.Bucket := Some bucket |} optFns in
  let contents := s3.ListObjectsV2Output.Contents resp in
  let result := run svc h (simplestorage.DeleteBucket c bucket opts) in
  bucket <> "" ->
  simplestorage.BucketOptions.ForceDelete o = true ->
  svc h listing = inl resp ->
  (exists evs reply,
      Forall2 (deleted bucket optFns) contents evs
      /\ snd result = h ++ [Ev listing (inl resp)] ++ evs ++ [Ev removal reply])
  \/ (exists done obj rest evs err,
      contents = done ++ obj :: rest
      /\ Forall2 (deleted bucket optFns) done evs
      /\ snd result
         = h ++ [Ev listing (inl resp)] ++ evs
             ++ [delete_failed bucket optFns obj err]
      /\ no_bucket_delete
           ([Ev listing (inl resp)] ++ evs ++ [delete_failed bucket optFns obj err])
      /\ (s3.Object.Key obj = None -> fst result = Panicked)
      /\ (forall key,
            s3.Object.Key obj = Some key ->
            fst result =
            Returned
              (Some (errors.Errorf_w "simplestorage: can't empty bucket %s: %w"
                       [ArgString bucket]
                       (errors.Errorf_w "can't delete object %s: %w"
                          [ArgString key] (sdkError err)))))).
Proof.
  cbv zeta. intros Hname Hforce Hlist.
  set (o := range_apply opts simplestorage.BucketOptions.defaults) in *.
  unfold simplestorage.DeleteBucket.
  apply String.eqb_neq in Hname. rewrite Hname.
  fold o. rewrite Hforce.
  rewrite run_bind.
  unfold simplestorage.emptyBucket.
  cbn [bind call run]. rewrite Hlist.
  set (lev := Ev (s3.ListObjectsV2 (simplestorage.empty_list_request bucket)
                    (simplestorage.BucketOptions.S3Options o)) (inl resp)).
  destruct (delete_each_outcomes svc bucket o
              (s3.ListObjectsV2Output.Contents resp) (h ++ [lev]))
    as [(evs & Hall & Hrun)|(done & obj & rest & evs & err
                             & Hsplit & Hall & Hrun)].
  - left. rewrite Hrun.
    unfold simplestorage.delete_bucket_call. cbn [bind call run].
    match goal with
    | |- context [svc ?h1 (s3.DeleteBucket ?p ?f)] =>
        exists evs, (svc h1 (s3.DeleteBucket p f));
        destruct (svc h1 (s3.DeleteBucket p f)) as [out|err]
    end; cbn [run snd]; (split; [exact Hall|]);
      rewrite <- !app_assoc; reflexivity.
  - right. rewrite Hrun.
    exists done, obj, rest, evs, err.
    split; [exact Hsplit|]. split; [exact Hall|].
    assert (Hquiet :
      no_bucket_delete
        ([lev] ++ evs
           ++ [delete_failed bucket (simplestorage.BucketOptions.S3Options o)
                 obj err])).
    { apply Forall_app. split; [repeat constructor|].
      apply Forall_app. split;
        [eapply deleted_no_bucket_delete; exact Hall|repeat constructor]. }
    destruct (s3.Object.Key obj) as [key|]; cbn [run fst snd].
    + split; [rewrite <- !app_assoc; reflexivity|].
      split; [exact Hquiet|].
      split; [discriminate|].
      intros key' Hk. injection Hk as <-. reflexivity.
    + split; [rewrite <- !app_assoc; reflexivity|].
      split; [exact Hquiet|].
      split; [reflexivity|]. intros key' Hk. discriminate Hk.
Qed.

Lemma DeleteBucket_force_stops_or_panics_at_a_failed_delete_witness :
  fst (run keyless_and_locked []
         (simplestorage.DeleteBucket (client_for "photos") "logs"
            [simplestorage.WithForceDelete]))
  = Panicked.
Proof.
  destruct (DeleteBucket_force_stops_or_panics_at_a_failed_delete
              (client_for "photos") "logs" [simplestorage.WithForceDelete]
              keyless_and_locked [] keyless_page)
    as [(evs & reply & Hall & Htrace)
       |(done & obj & rest & evs & err & Hsplit & Hall & Htrace & _ & Hpanic & _)].
  - discriminate.
  - reflexivity.
  - reflexivity.
  - reflexivity.
  - apply Hpanic.
    destruct done as [|first done]; simpl in Hsplit.
    + injection Hsplit as <- _. reflexivity.
    + injection Hsplit as _ Hrest.
      destruct done; discriminate Hrest.
Defined.

(** ** Beyond the settled properties: listing buckets *)

Lemma bucket_infos_unnamed (buckets : list s3.Bucket.t)
  (acc : list simplestorage.BucketInfo.t) :
  Exists (fun b => s3.Bucket.Name b = None) buckets ->
  simplestorage.bucket_infos buckets acc = Panic.
Proof.
  intro Hex; revert acc.
  induction Hex as [b rest Hb|b rest _ IH]; intro acc; simpl.
  - rewrite Hb. reflexivity.
  - destruct (s3.Bucket.Name b); [apply IH|reflexivity].
Qed.

(** X16. [ListBuckets] dereferences the name of every returned bucket: on a
    reply that holds a bucket without a name it panics, and on every other
    reply it returns a list.  A page is never partly returned. *)
Theorem ListBuckets_panics_exactly_on_an_unnamed_bucket
  (c : simplestorage.Client.t) (opts : list simplestorage.BucketOption) :
  exists params fns k,
    simplestorage.ListBuckets c opts = Call (s3.ListBuckets params fns) k
    /\ forall resp,
        (k (inl resp) = Panic
         <-> Exists (fun b => s3.Bucket.Name b = None)
               (s3.ListBucketsOutput.Buckets resp))
        /\ (k (inl resp) <> Panic ->
            exists list,
              k (inl resp) = Return (inl list)
              /\ length (simplestorage.BucketList.Buckets list)
                 = length (s3.ListBucketsOutput.Buckets resp)).
Proof.
  unfold simplestorage.ListBuckets, call. cbn [bind].
  do 3 eexists. split; [reflexivity|].
  intro resp. cbn beta iota.
  destruct (Exists_dec (fun b => s3.Bucket.Name b = None)
              (s3.ListBucketsOutput.Buckets resp)) as [Hex|Hnone].
  { intro b. destruct (s3.Bucket.Name b); [right; discriminate|left; reflexivity]. }
  - rewrite bucket_infos_unnamed by exact Hex. cbn [bind].
    split; [split; auto|]. intro H. exfalso. apply H. reflexivity.
  - assert (Hnamed : Forall (fun b => s3.Bucket.Name b <> None)
                       (s3.ListBucketsOutput.Buckets resp)).
    { apply Forall_forall. intros b Hin Hb. apply Hnone.
      apply Exists_exists. exists b. split; assumption. }
    rewrite bucket_infos_named by exact Hnamed. cbn [bind app].
    split.
    + split; [discriminate|]. intro Hex. contradiction.
    + intros _. eexists. split; [reflexivity|].
      cbn. apply length_map.
Qed.

(** X17. [ListBuckets] sends the continuation token it was given with
    [WithListToken] and nothing of [WithListLimit]: a call with a limit as
    its last option is the same program as the call without it. *)
Theorem ListBuckets_sends_the_token_and_drops_the_limit
  (c : simplestorage.Client.t) (opts : list simplestorage.BucketOption) :
  (forall limit,
      simplestorage.ListBuckets c (opts ++ [simplestorage.WithListLimit limit])
      = simplestorage.ListBuckets c opts)
  /\ (forall token, exists fns k,
      simplestorage.ListBuckets c (opts ++ [simplestorage.WithListToken token])
      = Call (s3.ListBuckets
                {| s3.ListBucketsInput.ContinuationToken := Some token |} fns) k)
  /\ (exists fns k,
      simplestorage.ListBuckets c []
      = Call (s3.ListBuckets
                {| s3.ListBucketsInput.ContinuationToken := None |} fns) k).
Proof.
  unfold simplestorage.ListBuckets, simplestorage.BucketOption in *.
  split; [|split].
  - intro limit. rewrite range_apply_app. reflexivity.
  - intro token. rewrite range_apply_app. do 2 eexists. reflexivity.
  - do 2 eexists. reflexivity.
Qed.

(** ** Beyond the settled properties: bucket options *)

Lemma last_cons_default {A : Type} (l : list A) (a d : A) :
  last (a :: l) d = last l a.
Proof.
  revert a d. induction l as [|b l IH]; intros a d; [reflexivity|].
  change (last (a :: b :: l) d) with (last (b :: l) d).
  rewrite !IH. reflexivity.
Qed.

Lemma snapshot_versions_apply (versions : list string) :
  forall start,
    let o := range_apply (map simplestorage.WithSnapshotVersion versions) start in
    simplestorage.BucketOptions.SnapshotVersion o
    = last versions (simplestorage.BucketOptions.SnapshotVersion start)
    /\ simplestorage.BucketOptions.S3Options o
       = simplestorage.BucketOptions.S3Options start
         ++ map tigrisheaders.WithSnapshotVersion versions.
Proof.
  induction versions as [|v versions IH]; intro start; cbv zeta.
  - simpl. now rewrite app_nil_r.
  - cbn [map range_apply].
    destruct (IH (simplestorage.WithSnapshotVersion v start)) as [Hv Hs].
    rewrite Hv, Hs. split.
    + cbn. symmetry. apply last_cons_default.
    + cbn. rewrite <- app_assoc. reflexivity.
Qed.

(** X18. [WithSnapshotVersion] overwrites the version field but accumulates
    headers: after any options, a run of snapshot-version options leaves the
    last version in the field, while the request options add one
    [X-Tigris-Snapshot-Version] header per option, the earlier versions
    included, in order. *)
Theorem snapshot_versions_overwrite_the_field_and_pile_up_headers
  (opts : list simplestorage.BucketOption) (versions : list string) :
  let start := range_apply opts simplestorage.BucketOptions.defaults in
  let o :=
    range_apply (opts ++ map simplestorage.WithSnapshotVersion versions)
      simplestorage.BucketOptions.defaults in
  simplestorage.BucketOptions.SnapshotVersion o
  = last versions (simplestorage.BucketOptions.SnapshotVersion start)
  /\ s3.added_headers (simplestorage.BucketOptions.S3Options o)
     = s3.added_headers (simplestorage.BucketOptions.S3Options start)
       ++ map (s3.AddHeaderValue "X-Tigris-Snapshot-Version") versions.
Proof.
  cbv zeta. unfold simplestorage.BucketOption in *.
  rewrite range_apply_app.
  destruct (snapshot_versions_apply versions
              (range_apply opts simplestorage.BucketOptions.defaults))
    as [Hv Hs].
  unfold simplestorage.BucketOption in *.
  split; [exact Hv|].
  rewrite Hs.
  rewrite (added_headers_all _ _
             (map (fun v => ("X-Tigris-Snapshot-Version", v)) versions)).
  - rewrite map_map. reflexivity.
  - clear Hv Hs.
    induction versions as [|v versions IH]; simpl; constructor;
      [intro options; reflexivity|exact IH].
Qed.

(** X19. [CreateBucket] with [WithEnableSnapshot] sends the enable-snapshot
    header twice: the option appends it to the request options, and the
    snapshot-enabled creation path it selects appends it again. *)
Theorem CreateBucket_with_snapshots_sends_the_header_twice
  (c : simplestorage.Client.t) (bucket : string)
  (opts : list simplestorage.BucketOption) :
  bucket <> "" ->
  exists fns k,
    simplestorage.CreateBucket c bucket (opts ++ [simplestorage.WithEnableSnapshot])
    = Call (s3.CreateBucket {| s3.CreateBucketInput.Bucket := Some bucket |} fns) k
    /\ s3.added_headers fns
       = s3.added_headers
           (simplestorage.BucketOptions.S3Options
              (range_apply opts simplestorage.BucketOptions.defaults))
         ++ [s3.AddHeaderValue "X-Tigris-Enable-Snapshot" "true";
             s3.AddHeaderValue "X-Tigris-Enable-Snapshot" "true"].
Proof.
  intro Hname. apply String.eqb_neq in Hname.
  unfold simplestorage.CreateBucket, simplestorage.BucketOption in *.
  rewrite Hname, range_apply_app.
  cbn [range_apply simplestorage.WithEnableSnapshot
         simplestorage.BucketOptions.EnableSnapshot
         simplestorage.BucketOptions.S3Options].
  unfold storage.CreateSnapshotEnabledBucket, call. cbn [bind].
  do 2 eexists. split; [reflexivity|].
  rewrite <- app_assoc.
  apply (added_headers_all _ _
           [("X-Tigris-Enable-Snapshot", "true");
            ("X-Tigris-Enable-Snapshot", "true")]).
  repeat constructor.
Qed.

Lemma CreateBucket_with_snapshots_sends_the_header_twice_witness :
  exists fns k,
    simplestorage.CreateBucket (client_for "photos") "logs"
      ([] ++ [simplestorage.WithEnableSnapshot])
    = Call (s3.CreateBucket {| s3.CreateBucketInput.Bucket := Some "logs" |} fns) k
    /\ s3.added_headers fns
       = s3.added_headers
           (simplestorage.BucketOptions.S3Options
              (range_apply [] simplestorage.BucketOptions.defaults))
         ++ [s3.AddHeaderValue "X-Tigris-Enable-Snapshot" "true";
             s3.AddHeaderValue "X-Tigris-Enable-Snapshot" "true"].
Proof.
  apply (CreateBucket_with_snapshots_sends_the_header_twice
           (client_for "photos") "logs" []).
  discriminate.
Defined.

(** ** Beyond the settled properties: what the creating operations report *)

(** X20. [CreateBucket], [CreateBucketSnapshot] and [ForkBucket], for
    non-empty names, make one bucket-creation call and, only when it
    succeeded, read the local clock once: the creation time they report is
    that reading, nothing the service said.  [CreateBucket] reports
    snapshots as disabled whatever its options; [CreateBucketSnapshot]
    reports the description as given and an empty version, and its call
    carries the take-snapshot header after the caller's headers;
    [ForkBucket] creates the target and reports the source and the resolved
    snapshot version.  On a failed call none of them reads the clock. *)
Theorem creating_operations_stamp_the_local_clock (c : simplestorage.Client.t)
  (bucket target description : string)
  (opts : list simplestorage.BucketOption) :
  bucket <> "" ->
  target <> "" ->
  let o := range_apply opts simplestorage.BucketOptions.defaults in
  (exists fns k,
      simplestorage.CreateBucket c bucket opts
      = Call (s3.CreateBucket {| s3.CreateBucketInput.Bucket := Some bucket |} fns) k
      /\ (forall out,
            k (inl out) =
            Call s3.Now
              (fun now =>
                 Return (inl
                   {| simplestorage.BucketInfo.Name := bucket;
                      simplestorage.BucketInfo.Created := now;
                      simplestorage.BucketInfo.SnapshotsEnabled := false;
                      simplestorage.BucketInfo.IsForkParent := false;
                      simplestorage.BucketInfo.SourceBucket := "";
                      simplestorage.BucketInfo.SourceSnapshot := "" |})))
      /\ (forall e, exists err, k (inr e) = Return (inr err)))
  /\ (exists fns k,
      simplestorage.CreateBucketSnapshot c bucket description opts
      = Call (s3.CreateBucket {| s3.CreateBucketInput.Bucket := Some bucket |} fns) k
      /\ s3.added_headers fns
         = s3.added_headers (simplestorage.BucketOptions.S3Options o)
           ++ [s3.AddHeaderValue "X-Tigris-Snapshot"
                 ("true; name=" ++ url.QueryEscape description)]
      /\ (forall out,
            k (inl out) =
            Call s3.Now
              (fun now =>
                 Return (inl
                   {| simplestorage.SnapshotInfo.Name := description;
                      simplestorage.SnapshotInfo.Version := "";
                      simplestorage.SnapshotInfo.Created := now;
                      simplestorage.SnapshotInfo.Bucket := bucket |})))
      /\ (forall e, exists err, k (inr e) = Return (inr err)))
  /\ (exists fns k,
      simplestorage.ForkBucket c bucket target opts
      = Call (s3.CreateBucket {| s3.CreateBucketInput.Bucket := Some target |} fns) k
      /\ (forall out,
            k (inl out) =
            Call s3.Now
              (fun now =>
                 Return (inl
                   {| simplestorage.BucketInfo.Name := target;
                      simplestorage.BucketInfo.Created := now;
                      simplestorage.BucketInfo.SnapshotsEnabled := false;
                      simplestorage.BucketInfo.IsForkParent := false;
                      simplestorage.BucketInfo.SourceBucket := bucket;
                      simplestorage.BucketInfo.SourceSnapshot :=
                        simplestorage.BucketOptions.SnapshotVersion o |})))
      /\ (forall e, exists err, k (inr e) = Return (inr err))).
Proof.
  intros Hb Ht. cbv zeta.
  apply String.eqb_neq in Hb, Ht.
  unfold simplestorage.CreateBucket, simplestorage.CreateBucketSnapshot,
    simplestorage.ForkBucket, storage.CreateSnapshotEnabledBucket,
    storage.CreateBucketSnapshot, call.
  rewrite Hb, Ht.
  split; [|split].
  - destruct (simplestorage.BucketOptions.EnableSnapshot _); cbn [bind];
      (do 2 eexists; split; [reflexivity|]; split;
       [intro out; reflexivity|intro e; eexists; reflexivity]).
  - cbn [bind]. do 2 eexists. split; [reflexivity|].
    split; [apply added_headers_header_option; intro options; reflexivity|].
    split; [intro out; reflexivity|intro e; eexists; reflexivity].
  - cbn [bind]. do 2 eexists. split; [reflexivity|].
    split; [intro out; reflexivity|intro e; eexists; reflexivity].
Qed.

Lemma creating_operations_stamp_the_local_clock_witness :
  exists fns k,
    simplestorage.ForkBucket (client_for "photos") "source" "target" []
    = Call (s3.CreateBucket {| s3.CreateBucketInput.Bucket := Some "target" |} fns) k
    /\ k (inl {| s3.CreateBucketOutput.Location := None |})
       = Call s3.Now
           (fun now =>
              Return (inl
                {| simplestorage.BucketInfo.Name := "target";
                   simplestorage.BucketInfo.Created := now;
                   simplestorage.BucketInfo.SnapshotsEnabled := false;
                   simplestorage.BucketInfo.IsForkParent := false;
                   simplestorage.BucketInfo.SourceBucket := "source";
                   simplestorage.BucketInfo.SourceSnapshot := "" |})).
Proof.
  destruct (creating_operations_stamp_the_local_clock (client_for "photos")
              "source" "target" "nightly" [])
    as (_ & _ & (fns & k & Heq & Hok & _)); [discriminate|discriminate|].
  exists fns, k. split; [exact Heq|].
  apply (Hok {| s3.CreateBucketOutput.Location := None |}).
Defined.

(** ** Beyond the settled properties: what a call sends and leaves alone *)


(** X22. Each list option changes one filter of the request [List] sends and
    no other: with the option last, the request is the request of the
    options before it with that one field replaced.  So the token a page
    returned, given back through [WithPaginationToken], is the continuation
    token of the next request, under the same prefix, delimiter, limit and
    start. *)
Theorem List_option_changes_one_filter (c : simplestorage.Client.t)
  (opts : list simplestorage.ClientOption) :
  let r :=
    simplestorage.list_request
      (range_apply opts
         (simplestorage.ClientOptions.defaults (simplestorage.Client.options c))) in
  let sends (last : simplestorage.ClientOption) (params : s3.ListObjectsV2Input.t) :=
    exists fns k,
      simplestorage.List c (opts ++ [last]) = Call (s3.ListObjectsV2 params fns) k in
  (forall token,
      sends (simplestorage.WithPaginationToken token)
        {| s3.ListObjectsV2Input.Bucket := s3.ListObjectsV2Input.Bucket r;
           s3.ListObjectsV2Input.Delimiter := s3.ListObjectsV2Input.Delimiter r;
           s3.ListObjectsV2Input.Prefix := s3.ListObjectsV2Input.Prefix r;
           s3.ListObjectsV2Input.MaxKeys := s3.ListObjectsV2Input.MaxKeys r;
           s3.ListObjectsV2Input.ContinuationToken := Some token;
           s3.ListObjectsV2Input.StartAfter := s3.ListObjectsV2Input.StartAfter r |})
  /\ (forall prefix,
      sends (simplestorage.WithPrefix prefix)
        {| s3.ListObjectsV2Input.Bucket := s3.ListObjectsV2Input.Bucket r;
           s3.ListObjectsV2Input.Delimiter := s3.ListObjectsV2Input.Delimiter r;
           s3.ListObjectsV2Input.Prefix := Some prefix;
           s3.ListObjectsV2Input.MaxKeys := s3.ListObjectsV2Input.MaxKeys r;
           s3.ListObjectsV2Input.ContinuationToken :=
             s3.ListObjectsV2Input.ContinuationToken r;
           s3.ListObjectsV2Input.StartAfter := s3.ListObjectsV2Input.StartAfter r |})
  /\ (forall delimiter,
      sends (simplestorage.WithDelimiter delimiter)
        {| s3.ListObjectsV2Input.Bucket := s3.ListObjectsV2Input.Bucket r;
           s3.ListObjectsV2Input.Delimiter := Some delimiter;
           s3.ListObjectsV2Input.Prefix := s3.ListObjectsV2Input.Prefix r;
           s3.ListObjectsV2Input.MaxKeys := s3.ListObjectsV2Input.MaxKeys r;
           s3.ListObjectsV2Input.ContinuationToken :=
             s3.ListObjectsV2Input.ContinuationToken r;
           s3.ListObjectsV2Input.StartAfter := s3.ListObjectsV2Input.StartAfter r |})
  /\ (forall maxKeys,
      sends (simplestorage.WithMaxKeys maxKeys)
        {| s3.ListObjectsV2Input.Bucket := s3.ListObjectsV2Input.Bucket r;
           s3.ListObjectsV2Input.Delimiter := s3.ListObjectsV2Input.Delimiter r;
           s3.ListObjectsV2Input.Prefix := s3.ListObjectsV2Input.Prefix r;
           s3.ListObjectsV2Input.MaxKeys := Some maxKeys;
           s3.ListObjectsV2Input.ContinuationToken :=
             s3.ListObjectsV2Input.ContinuationToken r;
           s3.ListObjectsV2Input.StartAfter := s3.ListObjectsV2Input.StartAfter r |})
  /\ (forall startAfter,
      sends (simplestorage.WithStartAfter startAfter)
        {| s3.ListObjectsV2Input.Bucket := s3.ListObjectsV2Input.Bucket r;
           s3.ListObjectsV2Input.Delimiter := s3.ListObjectsV2Input.Delimiter r;
           s3.ListObjectsV2Input.Prefix := s3.ListObjectsV2Input.Prefix r;
           s3.ListObjectsV2Input.MaxKeys := s3.ListObjectsV2Input.MaxKeys r;
           s3.ListObjectsV2Input.ContinuationToken :=
             s3.ListObjectsV2Input.ContinuationToken r;
           s3.ListObjectsV2Input.StartAfter := Some startAfter |}).
Proof.
  cbv zeta. unfold simplestorage.List, simplestorage.ClientOption, call in *.
  repeat split; intro v; rewrite range_apply_app; cbn [bind];
    do 2 eexists; reflexivity.
Qed.

Lemma request_options_apply (groups : list (list s3.OptFn)) :
  forall start,
    let o := range_apply (map simplestorage.WithS3Options groups) start in
    simplestorage.ClientOptions.S3Options o
    = simplestorage.ClientOptions.S3Options start ++ concat groups
    /\ simplestorage.ClientOptions.BucketName o
       = simplestorage.ClientOptions.BucketName start.
Proof.
  induction groups as [|g groups IH]; intro start; cbv zeta.
  - simpl. now rewrite app_nil_r.
  - cbn [map range_apply concat].
    destruct (IH (simplestorage.WithS3Options g start)) as [Hs Hb].
    rewrite Hs, Hb. cbn. rewrite <- app_assoc. split; reflexivity.
Qed.

(** X23. Request options given to a call pile up instead of replacing one
    another: after any options, a run of [WithS3Options] hands the SDK call
    the earlier request options followed by every group, in order, and
    leaves the bucket of the call alone. *)
Theorem WithS3Options_accumulates (c : simplestorage.Client.t) (key : string)
  (opts : list simplestorage.ClientOption) (groups : list (list s3.OptFn)) :
  let start :=
    range_apply opts
      (simplestorage.ClientOptions.defaults (simplestorage.Client.options c)) in
  exists k,
    simplestorage.Get c key (opts ++ map simplestorage.WithS3Options groups)
    = Call (s3.GetObject
              {| s3.GetObjectInput.Bucket :=
                   Some (simplestorage.ClientOptions.BucketName start);
                 s3.GetObjectInput.Key := Some key |}
              (simplestorage.ClientOptions.S3Options start ++ concat groups)) k.
Proof.
  cbv zeta. unfold simplestorage.Get, call. cbn [bind].
  unfold simplestorage.ClientOption in *.
  rewrite range_apply_app.
  destruct (request_options_apply groups
              (range_apply opts
                 (simplestorage.ClientOptions.defaults
                    (simplestorage.Client.options c)))) as [Hs Hb].
  unfold simplestorage.ClientOption in *.
  rewrite Hs, Hb. eexists. reflexivity.
Qed.

(** ** Beyond the settled properties: a failed construction *)

(** X24. With a bucket name resolved, [simplestorage.New] makes one call,
    the loading of the SDK configuration; when that fails it returns no
    client and an error that wraps the storage client's error, which wraps
    the SDK's: [errors.As] finds the SDK error, and [errors.Is] does not
    match [ErrNoBucketName]. *)
Theorem simplestorage_New_wraps_the_configuration_failure (env : Env)
  (options : list simplestorage.Option) (svc : Service) (h : list Event)
  (e : SdkError) :
  simplestorage.Options.BucketName
    (range_apply options (simplestorage.Options.defaults env)) <> "" ->
  svc h s3.LoadDefaultConfig = inr e ->
  exists err,
    run svc h (simplestorage.New env options)
    = (Returned (inr err), h ++ [Ev s3.LoadDefaultConfig (inr e)])
    /\ errors_As err = Some e
    /\ errors.Is err simplestorage.ErrNoBucketName = false.
Proof.
  intros Hb Hload.
  unfold simplestorage.New.
  apply String.eqb_neq in Hb. rewrite Hb.
  cbn [length Nat.eqb negb].
  unfold storage.New. cbn [bind call run]. rewrite Hload. cbn [bind run].
  eexists. split; [reflexivity|]. split; reflexivity.
Qed.

Lemma simplestorage_New_wraps_the_configuration_failure_witness :
  exists err,
    run config_unavailable []
      (simplestorage.New no_env [simplestorage.WithBucket "photos"])
    = (Returned (inr err),
       [] ++ [Ev s3.LoadDefaultConfig
                (inr (APIError "ConfigError" "no configuration"))])
    /\ errors_As err = Some (APIError "ConfigError" "no configuration")
    /\ errors.Is err simplestorage.ErrNoBucketName = false.
Proof.
  apply (simplestorage_New_wraps_the_configuration_failure no_env
           [simplestorage.WithBucket "photos"] config_unavailable []
           (APIError "ConfigError" "no configuration")).
  - discriminate.
  - reflexivity.
Defined.

(** ** Beyond the settled properties: descriptions that need no escaping *)

Lemma escape_byte_unreserved (c : ascii) :
  url.shouldEscape c = false -> url.escape_byte c = String c EmptyString.
Proof.
  destruct c as [[] [] [] [] [] [] [] []]; intro H;
    first [reflexivity | discriminate H].
Qed.

(** X25. A snapshot description made only of letters, digits and the marks
    [-], [_], [.] and [~] is sent as it is: the header value is the prefix
    followed by the description itself. *)
Theorem plain_description_is_sent_verbatim (description : string) :
  url.every (fun c => negb (url.shouldEscape c)) description = true ->
  tigrisheaders.take_snapshot_value description
  = ("true; name=" ++ description)%string.
Proof.
  unfold tigrisheaders.take_snapshot_value. intro Hplain.
  f_equal.
  induction description as [|c rest IH]; [reflexivity|].
  cbn [url.every] in Hplain. apply andb_prop in Hplain as [Hc Hrest].
  apply negb_true_iff in Hc.
  cbn [url.QueryEscape].
  rewrite (escape_byte_unreserved c Hc), (IH Hrest). reflexivity.
Qed.

Lemma plain_description_is_sent_verbatim_witness :
  tigrisheaders.take_snapshot_value "nightly-2024.01_v2~a"
  = ("true; name=" ++ "nightly-2024.01_v2~a")%string.
Proof.
  apply (plain_description_is_sent_verbatim "nightly-2024.01_v2~a").
  reflexivity.
Defined.

(** ** Beyond the settled properties: reading an object and its metadata *)

(** X26. [Get] and [Head] lower the reply the same way: for replies that
    carry the same content type, entity tag, length, version, time and user
    metadata, the two records agree on bucket, key and all of those, with
    [application/octet-stream] for a missing content type and the zero value
    for anything else missing.  [Head] never returns a body, and [Get] never
    a content disposition. *)
Theorem Get_and_Head_lower_alike (c : simplestorage.Client.t) (key : string)
  (opts : list simplestorage.ClientOption) :
  exists gp hp fns kg kh,
    simplestorage.Get c key opts = Call (s3.GetObject gp fns) kg
    /\ simplestorage.Head c key opts = Call (s3.HeadObject hp fns) kh
    /\ forall (got : s3.GetObjectOutput.t) (head : s3.HeadObjectOutput.t),
        exists g hd,
          kg (inl got) = Return (inl g)
          /\ kh (inl head) = Return (inl hd)
          /\ simplestorage.Object.Body hd = None
          /\ simplestorage.Object.ContentDisposition g = ""
          /\ simplestorage.Object.ContentType g
             = simplestorage.lower (s3.GetObjectOutput.ContentType got)
                 "application/octet-stream"
          /\ (s3.GetObjectOutput.ContentType got = s3.HeadObjectOutput.ContentType head ->
              s3.GetObjectOutput.ETag got = s3.HeadObjectOutput.ETag head ->
              s3.GetObjectOutput.ContentLength got
              = s3.HeadObjectOutput.ContentLength head ->
              s3.GetObjectOutput.VersionId got = s3.HeadObjectOutput.VersionId head ->
              s3.GetObjectOutput.LastModified got
              = s3.HeadObjectOutput.LastModified head ->
              s3.GetObjectOutput.Metadata got = s3.HeadObjectOutput.Metadata head ->
              simplestorage.Object.Bucket g = simplestorage.Object.Bucket hd
              /\ simplestorage.Object.Key g = simplestorage.Object.Key hd
              /\ simplestorage.Object.ContentType g
                 = simplestorage.Object.ContentType hd
              /\ simplestorage.Object.Etag g = simplestorage.Object.Etag hd
              /\ simplestorage.Object.Size g = simplestorage.Object.Size hd
              /\ simplestorage.Object.Version g = simplestorage.Object.Version hd
              /\ simplestorage.Object.LastModified g
                 = simplestorage.Object.LastModified hd
              /\ simplestorage.Object.Metadata g
                 = simplestorage.Object.Metadata hd).
Proof.
  unfold simplestorage.Get, simplestorage.Head, call. cbn [bind].
  do 5 eexists. split; [reflexivity|]. split; [reflexivity|].
  intros got head. do 2 eexists.
  split; [reflexivity|]. split; [reflexivity|].
  split; [reflexivity|]. split; [reflexivity|]. split; [reflexivity|].
  cbn. intros -> -> -> -> -> ->. repeat split.
Qed.
